(** * mfdread: a Mifare Classic dump reader

    Shallow embedding of [mfdread.py] and verification of its access-bit
    decoding, permission tables, value-block test and sector layout.

    Python values are modelled as follows: [int] is [Z]; [bytes] is a list
    of [Byte.byte]; [str] is [string]; a [BitArray] is the list of its bits,
    index 0 first (the most significant bit of a hexadecimal initialiser);
    a [dict] is a [gmap]; a raised exception is the [Raise] outcome of the
    result monad [res]. *)

From Stdlib Require Import ZArith String Ascii.
From Stdlib.Strings Require Import Byte.
From stdpp Require Import base option list gmap strings pretty.

Local Open Scope Z_scope.

(** ** Outcomes of Python code *)

Inductive exn : Type :=
  | SystemExit (msg : string)
  | IndexError
  | KeyError
  | ValueError.

Inductive res (A : Type) : Type :=
  | Ok (a : A)
  | Raise (e : exn).
Arguments Ok {A} a.
Arguments Raise {A} e.

#[global] Instance res_ret : MRet res := λ A a, Ok a.
#[global] Instance res_bind : MBind res := λ A B f m,
  match m with
  | Ok a => f a
  | Raise e => Raise e
  end.

(** ** Python sequences *)

Module Py.

(** [len(l)] *)
Definition len {A} (l : list A) : Z := Z.of_nat (length l).

(** [l[i]]: a negative index counts from the end, an index out of range
    raises [IndexError]. *)
Definition index {A} (l : list A) (i : Z) : res A :=
  let j := if i <? 0 then i + len l else i in
  if (0 <=? j) && (j <? len l) then
    match l !! Z.to_nat j with
    | Some x => Ok x
    | None => Raise IndexError
    end
  else Raise IndexError.

(** [l[i] = x]: the same index rule as reading. *)
Definition set_item {A} (l : list A) (i : Z) (x : A) : res (list A) :=
  let j := if i <? 0 then i + len l else i in
  if (0 <=? j) && (j <? len l) then Ok (<[Z.to_nat j := x]> l)
  else Raise IndexError.

(** [d[k]] on a plain [dict]: a missing key raises [KeyError]. *)
Definition dict_get {V} (d : gmap Z V) (k : Z) : res V :=
  match d !! k with
  | Some v => Ok v
  | None => Raise KeyError
  end.

(** The bound of a slice, clamped the way [slice.indices] does it. *)
Definition clamp (n i : Z) : Z :=
  if i <? 0 then Z.max 0 (i + n) else Z.min i n.

(** [l[lo:hi]]: never raises, out-of-range bounds are clamped. *)
Definition slice {A} (l : list A) (lo hi : Z) : list A :=
  let a := clamp (len l) lo in
  let b := clamp (len l) hi in
  take (Z.to_nat (b - a)) (drop (Z.to_nat a) l).

(** [range(start, stop, step)] for a positive step. *)
Definition range (start stop step : Z) : list Z :=
  (λ k : nat, start + step * Z.of_nat k) <$>
    seq 0 (Z.to_nat ((stop - start + step - 1) / step)).

(** [s[lo:hi]] on a [str]. *)
Definition str_slice (s : string) (lo hi : Z) : string :=
  string_of_list_ascii (slice (list_ascii_of_string s) lo hi).

(** [len(s)] on a [str]. *)
Definition str_len (s : string) : Z := Z.of_nat (String.length s).

End Py.

(** ** The [bitstring.BitArray] operations the program uses *)

Module BitArray.

(** [a.bin]: the bits as a string of '0' and '1'. *)
Fixpoint bin (a : list bool) : string :=
  match a with
  | [] => ""%string
  | b :: a' => String (if b then "1"%char else "0"%char) (bin a')
  end.

(** [a.invert()]: every bit complemented. *)
Definition invert (a : list bool) : list bool := negb <$> a.

(** The value of a hexadecimal digit, either case. *)
Definition hex_digit (c : ascii) : option Z :=
  let n := Z.of_nat (nat_of_ascii c) in
  if (48 <=? n) && (n <=? 57) then Some (n - 48)
  else if (97 <=? n) && (n <=? 102) then Some (n - 87)
  else if (65 <=? n) && (n <=? 70) then Some (n - 55)
  else None.

(** The four bits of a nibble, most significant first. *)
Definition nibble_bits (v : Z) : list bool :=
  [Z.testbit v 3; Z.testbit v 2; Z.testbit v 1; Z.testbit v 0].

(** [BitArray('0x' + h)]: four bits per digit of [h], in reading order;
    a character that is no hexadecimal digit raises (bitstring's
    [CreationError], a [ValueError]). *)
Fixpoint of_hex (h : string) : res (list bool) :=
  match h with
  | EmptyString => Ok []
  | String c h' =>
      match hex_digit c with
      | Some v => rest ← of_hex h'; mret (nibble_bits v ++ rest)
      | None => Raise ValueError
      end
  end.

End BitArray.

(** ** Access bits *)

(** What [accbits_for_blocknum] returns: the three access bits as a
    [BitArray], or Python's [False]. *)
Inductive accval : Type :=
  | Bits (b : list bool)
  | PyFalse.

#[global] Instance accval_eq_dec : EqDecision accval.
Proof. solve_decision. Defined.

(** [BitArray([a[i], a[j], a[k]])] *)
Definition pick (accbits_str : list bool) (idx : list Z) : res (list bool) :=
  mapM (Py.index accbits_str) idx.

Definition accbits_for_blocknum (accbits_str : list bool) (blocknum : Z)
  : res accval :=
  '(bits, inverted) ←
    (if blocknum =? 0 then
       bits ← pick accbits_str [11; 23; 19];
       inverted ← pick accbits_str [7; 3; 15];
       mret (bits, inverted)
     else if blocknum =? 1 then
       bits ← pick accbits_str [10; 22; 18];
       inverted ← pick accbits_str [6; 2; 14];
       mret (bits, inverted)
     else if blocknum =? 2 then
       bits ← pick accbits_str [9; 21; 17];
       inverted ← pick accbits_str [5; 1; 13];
       mret (bits, inverted)
     else if (blocknum =? 3) || (blocknum =? 15) then
       bits ← pick accbits_str [8; 20; 16];
       inverted ← pick accbits_str [4; 0; 12];
       mret (bits, inverted)
     else mret ([false], [false]));
  let inverted := BitArray.invert inverted in
  if decide (BitArray.bin bits = BitArray.bin inverted)
  then mret (Bits bits)
  else mret PyFalse.

Definition permissions_sector : gmap string string :=
  list_to_map
    [ ("000", "- A | A   - | A A [read B]");
      ("010", "- - | A   - | A - [read B]");
      ("100", "- B | A/B - | - B");
      ("110", "- - | A/B - | - -");
      ("001", "- A | A   A | A A [transport]");
      ("011", "- B | A/B B | - B");
      ("101", "- - | A/B B | - -");
      ("111", "- - | A/B - | - -") ]%string.

Definition accbits_to_permission_sector (accbits : accval) : string :=
  match accbits with
  | Bits b => default "unknown"%string (permissions_sector !! BitArray.bin b)
  | PyFalse => ""%string
  end.

Definition permissions_data : gmap string string :=
  list_to_map
    [ ("000", "A/B | A/B   | A/B | A/B [transport]");
      ("010", "A/B |  -    |  -  |  -  [r/w]");
      ("100", "A/B |   B   |  -  |  -  [r/w]");
      ("110", "A/B |   B   |   B | A/B [value]");
      ("001", "A/B |  -    |  -  | A/B [value]");
      ("011", "  B |   B   |  -  |  -  [r/w]");
      ("101", "  B |  -    |  -  |  -  [r/w]");
      ("111", " -  |  -    |  -  |  -  [r/w]") ]%string.

Definition accbits_to_permission_data (accbits : accval) : string :=
  match accbits with
  | Bits b => default "unknown"%string (permissions_data !! BitArray.bin b)
  | PyFalse => ""%string
  end.

(** [access_bits[k]] on the [defaultdict(lambda: False)]: a missing key
    reads as [False].  (Python also stores that [False] under the key; no
    later read can tell the difference, so the store is left out.) *)
Definition dd_get (access_bits : gmap Z accval) (k : Z) : accval :=
  default PyFalse (access_bits !! k).

(** The loop [for i in range(0, 4): access_bits[i] = ...]. *)
Fixpoint accbit_loop (accbits : list bool) (rng : list Z)
    (access_bits : gmap Z accval) : res (gmap Z accval) :=
  match rng with
  | [] => Ok access_bits
  | i :: rng' =>
      v ← accbits_for_blocknum accbits i;
      accbit_loop accbits rng' (<[i := v]> access_bits)
  end.

Definition accbit_info (accbits : list bool) (sector_size : Z)
  : res (gmap Z accval) :=
  let access_bits : gmap Z accval := ∅ in
  if sector_size =? 15 then
    v ← accbits_for_blocknum accbits sector_size;
    mret (<[sector_size := v]> access_bits)
  else accbit_loop accbits (Py.range 0 4 1) access_bits.

(** ** Hexadecimal text *)

(** A byte as the [int] that indexing a [bytes] object gives. *)
Definition byte_val (b : byte) : Z := Z.of_N (Byte.to_N b).

(** The [int] below 256 as a byte. *)
Definition byte_of_val (v : Z) : byte := default x00 (Byte.of_N (Z.to_N v)).

(** The lower-case digit of a nibble. *)
Definition hex_char (v : Z) : ascii :=
  ascii_of_nat (Z.to_nat (if v <? 10 then 48 + v else 87 + v)).

(** [str(codecs.encode(bs, 'hex'), 'ascii')]: two lower-case digits per
    byte, high nibble first. *)
Fixpoint hexlify (bs : list byte) : string :=
  match bs with
  | [] => ""%string
  | b :: bs' =>
      String (hex_char (byte_val b / 16))
        (String (hex_char (byte_val b mod 16)) (hexlify bs'))
  end.

(** ASCII white space, which [bytes.fromhex] skips between bytes. *)
Definition is_space (c : ascii) : bool :=
  let n := Z.of_nat (nat_of_ascii c) in
  (n =? 32) || ((9 <=? n) && (n <=? 13)).

(** [bytes.fromhex(s)]: pairs of hexadecimal digits, white space allowed
    between pairs; anything else raises [ValueError]. *)
Fixpoint fromhex (s : string) : res (list byte) :=
  match s with
  | EmptyString => Ok []
  | String c s' =>
      if is_space c then fromhex s'
      else
        match s' with
        | EmptyString => Raise ValueError
        | String d s'' =>
            match BitArray.hex_digit c, BitArray.hex_digit d with
            | Some h, Some l =>
                rest ← fromhex s''; mret (byte_of_val (16 * h + l) :: rest)
            | _, _ => Raise ValueError
            end
        end
  end.

(** ** Value blocks *)

(** [b[i] == b[j]] *)
Definition same_at (b : list Z) (i j : Z) : res bool :=
  x ← Py.index b i; y ← Py.index b j; mret (x =? y).

(** [(b[i] ^ 0xFF) == b[j]] *)
Definition inverse_at (b : list Z) (i j : Z) : res bool :=
  x ← Py.index b i; y ← Py.index b j; mret (Z.lxor x 255 =? y).

(** Python's [p and q] on booleans: [q] is evaluated only when [p] is
    true, so an exception in [q] is not raised when [p] is false. *)
Definition and_then (p q : res bool) : res bool :=
  x ← p; if x : bool then q else mret false.

Definition is_value_block (block : string) : res bool :=
  bs ← fromhex block;
  let b := byte_val <$> bs in
  and_then
    (and_then
      (and_then
        (and_then
          (and_then (same_at b 0 8) (inverse_at b 0 4))
          (and_then (same_at b 1 9) (inverse_at b 1 5)))
        (and_then (same_at b 2 10) (inverse_at b 2 6)))
      (and_then (same_at b 3 11) (inverse_at b 3 7)))
    (and_then (and_then (same_at b 12 14) (same_at b 13 15))
       (inverse_at b 12 13)).

(** The canonical value block of the specification: value 1 at address 1. *)
Definition canonical_value_block : list byte :=
  [x00; x00; x00; x01; xff; xff; xff; xfe;
   x00; x00; x00; x01; x01; xfe; x01; xfe].

(** Bit [j] of byte [i] of [bs] flipped. *)
Definition flip_bit (bs : list byte) (i j : nat) : list byte :=
  match bs !! i with
  | Some b =>
      <[i := byte_of_val (Z.lxor (byte_val b) (Z.shiftl 1 (Z.of_nat j)))]> bs
  | None => bs
  end.

(** ** The dump *)

(** [class Options] *)
Record Options : Type := {
  FORCE_1K : bool;
  UID_LENGTH : Z;
}.

(** The defaults of [class Options]. *)
Definition default_options : Options :=
  {| FORCE_1K := false; UID_LENGTH := 4 |}.

(** [[sector[x:x + 32] for x in range(0, len(sector), 32)]] *)
Definition split_blocks (sector : string) : list string :=
  (λ x, Py.str_slice sector x (x + 32)) <$> Py.range 0 (Py.str_len sector) 32.

(** The loop [while True] that reads the sectors.  Its state is
    [blocksmatrix], [sector_number], [start] and [end]; [None] means that
    the loop is still running when the fuel is used up. *)
Fixpoint read_sectors (fuel : nat) (data : list byte) (data_size : Z)
    (blocksmatrix : list (list string)) (sector_number start end_ : Z)
  : option (list (list string) * Z) :=
  match fuel with
  | O => None
  | S fuel' =>
      let sector := Py.slice data start end_ in
      let sector := hexlify sector in
      let sectors := split_blocks sector in
      let blocksmatrix := blocksmatrix ++ [sectors] in
      let sector_number := sector_number + 1 in
      let '(start, end_) :=
        if sector_number <? 32 then (start + 64, end_ + 64)
        else if sector_number =? 32 then (start + 64, end_ + 256)
        else (start + 256, end_ + 256) in
      if start =? data_size then Some (blocksmatrix, sector_number)
      else read_sectors fuel' data data_size blocksmatrix sector_number
             start end_
  end.
(** [class bashcolors]: the escape sequences around the coloured fields;
    option [-n] of the program sets all five to the empty string. *)
Record bashcolors : Type := {
  BLUE : string;
  RED : string;
  GREEN : string;
  WARNING : string;
  ENDC : string;
}.

Definition esc (s : string) : string := String "027"%char s.

Definition ansi_colors : bashcolors :=
  {| BLUE := esc "[34m"; RED := esc "[91m"; GREEN := esc "[32m";
     WARNING := esc "[93m"; ENDC := esc "[0m" |}.

Definition no_colors : bashcolors :=
  {| BLUE := ""; RED := ""; GREEN := ""; WARNING := ""; ENDC := "" |}.

(** One printed line of the table.  The last column of the program's line,
    the block decoded as text, is left out: it is computed after
    [is_value_block] has parsed the same hexadecimal text, and its own
    failures are caught inside [decode]. *)
Record row : Type := {
  row_qn : option Z;          (* the sector number, printed on block 2 only *)
  row_block_number : Z;
  row_data : string;
  row_accbits : string;
  row_permissions : string;
}.

(** The lines printed before the table (the manufacture date, which reads
    the clock inside a [try], is left out). *)
Record header : Type := {
  hdr_file_size : Z;
  hdr_sectors : Z;
  hdr_uid : string;
  hdr_bcc : string;
  hdr_sak : string;
  hdr_atqa : string;
}.

Record report : Type := {
  rep_header : header;
  rep_rows : list row;
}.

Definition accepted_sizes : gset Z := {[ 4096; 1024; 320 ]}.

Definition newline : string := String "010"%char "".

(** The message of [sys.exit] on a wrong size. *)
Definition wrong_file_size (n : Z) : string :=
  "Wrong file size: " +:+ pretty n +:+ " bytes." +:+ newline
    +:+ "Only 320, 1024 or 4096 bytes allowed.".

(** The body of the loop [for c in range(0, len(blocksmatrix))]: decode the
    access bits of sector [c] from its last block and colour that block. *)
Definition paint_trailer (clr : bashcolors) (c : Z)
    (blocksmatrix : list (list string)) (blockrights : gmap Z (gmap Z accval))
  : res (list (list string) * gmap Z (gmap Z accval)) :=
  sec ← Py.index blocksmatrix c;
  let sector_size := Py.len sec - 1 in
  trailer ← Py.index sec sector_size;
  acc ← BitArray.of_hex (Py.str_slice trailer 12 20);
  rights ← accbit_info acc sector_size;
  let blockrights := <[c := rights]> blockrights in
  let keyA := RED clr +:+ Py.str_slice trailer 0 12 +:+ ENDC clr in
  let accbits := GREEN clr +:+ Py.str_slice trailer 12 20 +:+ ENDC clr in
  let keyB := BLUE clr +:+ Py.str_slice trailer 20 32 +:+ ENDC clr in
  sec ← Py.set_item sec sector_size (keyA +:+ accbits +:+ keyB);
  blocksmatrix ← Py.set_item blocksmatrix c sec;
  mret (blocksmatrix, blockrights).

Fixpoint paint_trailers (clr : bashcolors) (cs : list Z)
    (blocksmatrix : list (list string)) (blockrights : gmap Z (gmap Z accval))
  : res (list (list string) * gmap Z (gmap Z accval)) :=
  match cs with
  | [] => Ok (blocksmatrix, blockrights)
  | c :: cs' =>
      '(blocksmatrix, blockrights) ←
        paint_trailer clr c blocksmatrix blockrights;
      paint_trailers clr cs' blocksmatrix blockrights
  end.

(** The access column: the bits, or ERR. *)
Definition format_accbits (clr : bashcolors) (a : accval) : string :=
  match a with
  | Bits b => GREEN clr +:+ BitArray.bin b +:+ ENDC clr
  | PyFalse => WARNING clr +:+ "ERR" +:+ ENDC clr
  end.

(** The permission column of block [z] of sector [q]. *)
Definition block_permissions (q z n_blocks : Z) (a : accval) : string :=
  if (q =? 0) && (z =? 0) then "-"
  else if z =? n_blocks - 1 then accbits_to_permission_sector a
  else accbits_to_permission_data a.

(** The body of the loop [for z in range(0, len(blocksmatrix[q]))]. *)
Definition print_block (clr : bashcolors)
    (blockrights : gmap Z (gmap Z accval))
    (blocksmatrix_clear : list (list string)) (q n_blocks z : Z)
    (blocksmatrix : list (list string)) (block_number : Z)
  : res (list (list string) * row) :=
  rights ← Py.dict_get blockrights q;
  let a := dd_get rights z in
  let accbits := format_accbits clr a in
  let permissions := block_permissions q z n_blocks a in
  let qn := if z =? 2 then Some q else None in
  clear ← Py.index blocksmatrix_clear q;
  clear ← Py.index clear z;
  value ← is_value_block clear;
  blocksmatrix ←
    (if value : bool then
       sec ← Py.index blocksmatrix q;
       sec ← Py.set_item sec z (WARNING clr +:+ clear +:+ ENDC clr);
       Py.set_item blocksmatrix q sec
     else mret blocksmatrix);
  sec ← Py.index blocksmatrix q;
  text ← Py.index sec z;
  mret (blocksmatrix,
        {| row_qn := qn; row_block_number := block_number; row_data := text;
           row_accbits := accbits; row_permissions := permissions |}).

Fixpoint print_blocks (clr : bashcolors)
    (blockrights : gmap Z (gmap Z accval))
    (blocksmatrix_clear : list (list string)) (q n_blocks : Z) (zs : list Z)
    (blocksmatrix : list (list string)) (block_number : Z) (out : list row)
  : res (list (list string) * Z * list row) :=
  match zs with
  | [] => Ok (blocksmatrix, block_number, out)
  | z :: zs' =>
      '(blocksmatrix, r) ←
        print_block clr blockrights blocksmatrix_clear q n_blocks z
          blocksmatrix block_number;
      print_blocks clr blockrights blocksmatrix_clear q n_blocks zs'
        blocksmatrix (block_number + 1) (out ++ [r])
  end.

(** The loop [for q in range(0, len(blocksmatrix))]. *)
Fixpoint print_sectors (clr : bashcolors)
    (blockrights : gmap Z (gmap Z accval))
    (blocksmatrix_clear : list (list string)) (qs : list Z)
    (blocksmatrix : list (list string)) (block_number : Z) (out : list row)
  : res (list (list string) * Z * list row) :=
  match qs with
  | [] => Ok (blocksmatrix, block_number, out)
  | q :: qs' =>
      sec ← Py.index blocksmatrix q;
      let n_blocks := Py.len sec in
      '(blocksmatrix, block_number, out) ←
        print_blocks clr blockrights blocksmatrix_clear q n_blocks
          (Py.range 0 (Py.len sec) 1) blocksmatrix block_number out;
      print_sectors clr blockrights blocksmatrix_clear qs'
        blocksmatrix block_number out
  end.

(** Everything [print_info] does once the sectors are read. *)
Definition print_report (clr : bashcolors) (opts : Options)
    (data : list byte) (blocksmatrix : list (list string))
    (sector_number : Z) : res report :=
  let blocksmatrix_clear := blocksmatrix in
  '(blocksmatrix, blockrights) ←
    paint_trailers clr (Py.range 0 (Py.len blocksmatrix) 1) blocksmatrix ∅;
  let sakStart :=
    if UID_LENGTH opts =? 4 then UID_LENGTH opts * 2 + 2
    else UID_LENGTH opts * 2 in
  sec0 ← Py.index blocksmatrix 0;
  block0 ← Py.index sec0 0;
  let hdr :=
    {| hdr_file_size := Py.len data;
       hdr_sectors := sector_number;
       hdr_uid := if UID_LENGTH opts =? 4 then Py.str_slice block0 0 8
                  else Py.str_slice block0 0 14;
       hdr_bcc := Py.str_slice block0 8 10;
       hdr_sak := Py.str_slice block0 sakStart (sakStart + 2);
       hdr_atqa := Py.str_slice block0 (sakStart + 2) (sakStart + 6) |} in
  '(_, _, rows) ←
    print_sectors clr blockrights blocksmatrix_clear
      (Py.range 0 (Py.len blocksmatrix) 1) blocksmatrix 0 [];
  mret {| rep_header := hdr; rep_rows := rows |}.

(** [print_info(data)] under the options [opts] and the colours [clr].
    [None]: the sector loop is still running when the fuel is used up. *)
Definition print_info (fuel : nat) (clr : bashcolors) (opts : Options)
    (data : list byte) : option (res report) :=
  let data_size := Py.len data in
  if decide (data_size ∉ accepted_sizes) then
    Some (Raise (SystemExit (wrong_file_size (Py.len data))))
  else
    let data_size := if FORCE_1K opts then 1024 else data_size in
    match read_sectors fuel data data_size [] 0 0 64 with
    | None => None
    | Some (blocksmatrix, sector_number) =>
        Some (print_report clr opts data blocksmatrix sector_number)
    end.

(** The bit of an access field at position [i], counted as [BitArray]
    does (position 0 is the most significant bit). *)
Definition bit (a : list bool) (i : Z) : bool :=
  default false (a !! Z.to_nat i).

(** A value is a valid access code when it is a [BitArray] of three bits. *)
Definition valid_code (v : accval) : Prop :=
  ∃ b1 b2 b3 : bool, v = Bits [b1; b2; b3].

(** The dump of [n] zero bytes. *)
Definition zero_dump (n : nat) : list byte := replicate n x00.

(** ** The command line *)

(** The text of [sys.exit] when the script is started without argument. *)
Definition usage : string :=
  (newline +:+ "------------------" +:+ newline
     +:+ "Usage: mfdread.py ./dump.mfd" +:+ newline
     +:+ "Mifare dumps reader." +:+ newline)%string.

(** One of the three tests [if args[0] == flag: args.pop(0); ...] of
    [main]: the remaining arguments and whether the flag was there.
    [args[0]] raises [IndexError] on an empty list. *)
Definition take_flag (flag : string) (args : list string)
  : res (list string * bool) :=
  a ← Py.index args 0;
  if decide (a = flag) then mret (drop 1 args, true) else mret (args, false).

(** [main(args)].  The class attributes of [bashcolors] and [Options],
    which [main] overwrites, are the state [clr], [opts] it starts from;
    [open_rb] stands for [open(filename, "rb").read()], the file system
    deciding the bytes or the exception. *)
Definition main (fuel : nat) (open_rb : string → res (list byte))
    (clr : bashcolors) (opts : Options) (args : list string)
  : option (res report) :=
  match
    ('(args, n) ← take_flag "-n" args;
     let clr := if n : bool then no_colors else clr in
     '(args, one) ← take_flag "-1" args;
     let opts :=
       if one : bool
       then {| FORCE_1K := true; UID_LENGTH := UID_LENGTH opts |}
       else opts in
     '(args, seven) ← take_flag "-7" args;
     let opts :=
       if seven : bool
       then {| FORCE_1K := FORCE_1K opts; UID_LENGTH := 7 |}
       else opts in
     filename ← Py.index args 0;
     data ← open_rb filename;
     mret (clr, opts, data))
  with
  | Ok (clr, opts, data) => print_info fuel clr opts data
  | Raise e => Some (Raise e)
  end.

(** The script: the test on [sys.argv] at the top of the module, then
    [main(sys.argv[1:])]. *)
Definition run_script (fuel : nat) (open_rb : string → res (list byte))
    (argv : list string) : option (res report) :=
  if Py.len argv =? 1 then Some (Raise (SystemExit usage))
  else main fuel open_rb ansi_colors default_options
         (Py.slice argv 1 (Py.len argv)).

(** * Vocabulary of the statements *)

(** The outcome is a value, not an exception. *)
Definition is_Ok {A} (r : res A) : Prop := ∃ a, r = Ok a.

(** The bits checked for a group: the code is read at [rd], its inverse at
    [ck]; the result of the comparison in [accbits_for_blocknum]. *)
Definition checked (a : list bool) (rd ck : list Z) : accval :=
  if decide (bit a <$> rd = negb <$> (bit a <$> ck))
  then Bits (bit a <$> rd) else PyFalse.

(** The access field ff078069 of a card in transport configuration. *)
Definition transport_field : list bool :=
  Eval vm_compute in
    match BitArray.of_hex "ff078069" with Ok a => a | Raise _ => [] end.

(** [b[i]] for an index in range. *)
Definition at_ (b : list byte) (i : nat) : Z :=
  byte_val (default x00 (b !! i)).

(** The characters of [hexlify bs]. *)
Fixpoint hex_chars (bs : list byte) : list ascii :=
  match bs with
  | [] => []
  | b :: bs' =>
      hex_char (byte_val b / 16) :: hex_char (byte_val b mod 16)
        :: hex_chars bs'
  end.

(** The 16-byte blocks of a sector's bytes. *)
Definition byte_blocks (bs : list byte) : list (list byte) :=
  (λ x, Py.slice bs x (x + 16)) <$> Py.range 0 (Py.len bs) 16.

(** The bounds [(start, end)] of the slices that the sector loop takes,
    and the sector count it ends with. *)
Fixpoint sector_bounds (fuel : nat) (data_size sector_number start end_ : Z)
  : option (list (Z * Z) * Z) :=
  match fuel with
  | O => None
  | S fuel' =>
      let sector_number' := sector_number + 1 in
      let '(start', end') :=
        if sector_number' <? 32 then (start + 64, end_ + 64)
        else if sector_number' =? 32 then (start + 64, end_ + 256)
        else (start + 256, end_ + 256) in
      if start' =? data_size then Some ([(start, end_)], sector_number')
      else
        (λ r, ((start, end_) :: r.1, r.2)) <$>
          sector_bounds fuel' data_size sector_number' start' end'
  end.

(** The blocks of the sector between two bounds. *)
Definition sector_blocks (data : list byte) (se : Z * Z) : list string :=
  split_blocks (hexlify (Py.slice data se.1 se.2)).

(** The text of a full block: the hexadecimal text of 16 bytes. *)
Definition hex_block (s : string) : Prop :=
  ∃ b : list byte, length b = 16%nat ∧ s = hexlify b.

(** The bounds that the loop takes for a given size, 40 steps at most. *)
Definition bounds_of (data_size : Z) : list (Z * Z) * Z :=
  default ([], 0) (sector_bounds 40 data_size 0 0 64).

(** The block counts of the sectors of a matrix. *)
Definition shape (blocksmatrix : list (list string)) : list nat :=
  length <$> blocksmatrix.

(** The access bits that [paint_trailer] decodes from a sector. *)
Definition trailer_rights (sec : list string) : res (gmap Z accval) :=
  let sector_size := Py.len sec - 1 in
  trailer ← Py.index sec sector_size;
  acc ← BitArray.of_hex (Py.str_slice trailer 12 20);
  accbit_info acc sector_size.

(** The coloured text of a trailer. *)
Definition paint (clr : bashcolors) (trailer : string) : string :=
  ((RED clr +:+ Py.str_slice trailer 0 12 +:+ ENDC clr)
   +:+ (GREEN clr +:+ Py.str_slice trailer 12 20 +:+ ENDC clr)
   +:+ (BLUE clr +:+ Py.str_slice trailer 20 32 +:+ ENDC clr))%string.

(** A sector with its last block coloured. *)
Definition painted (clr : bashcolors) (sec : list string) : list string :=
  match last sec with
  | Some trailer => <[pred (length sec) := paint clr trailer]> sec
  | None => sec
  end.

(** The rights of the sectors [k], [k+1], ... stored into [blockrights]. *)
Fixpoint add_rights (k : nat) (rs : list (gmap Z accval))
    (blockrights : gmap Z (gmap Z accval)) : gmap Z (gmap Z accval) :=
  match rs with
  | [] => blockrights
  | r :: rs' => add_rights (S k) rs' (<[Z.of_nat k := r]> blockrights)
  end.

(** Whether a block is shown as a value block. *)
Definition value_flag (blk : string) : bool :=
  match is_value_block blk with
  | Ok v => v
  | Raise _ => false
  end.

(** The data column: the plain text [cblk] highlighted when it is a value
    block, the text [blk] of the coloured matrix otherwise. *)
Definition highlight (clr : bashcolors) (cblk blk : string) : string :=
  if value_flag cblk then (WARNING clr +:+ cblk +:+ ENDC clr)%string
  else blk.

(** The line of block [z] of sector [q]. *)
Definition row_of (clr : bashcolors) (rights : gmap Z accval)
    (q n_blocks : Z) (z : nat) (cblk blk : string) (bn : Z) : row :=
  {| row_qn := if Z.of_nat z =? 2 then Some q else None;
     row_block_number := bn;
     row_data := highlight clr cblk blk;
     row_accbits := format_accbits clr (dd_get rights (Z.of_nat z));
     row_permissions :=
       block_permissions q (Z.of_nat z) n_blocks
         (dd_get rights (Z.of_nat z)) |}.

(** The lines of the blocks [z], [z+1], ... of sector [q], whose plain
    texts are [cs] and whose coloured texts are [ss]. *)
Fixpoint rows_of (clr : bashcolors) (rights : gmap Z accval)
    (q n_blocks : Z) (z : nat) (cs ss : list string) (bn : Z) : list row :=
  match cs, ss with
  | c :: cs', s :: ss' =>
      row_of clr rights q n_blocks z c s bn
        :: rows_of clr rights q n_blocks (S z) cs' ss' (bn + 1)
  | _, _ => []
  end.

(** The rights of a sector, empty when they cannot be decoded. *)
Definition rights_of (sec : list string) : gmap Z accval :=
  match trailer_rights sec with
  | Ok r => r
  | Raise _ => ∅
  end.

(** The lines of the sectors [q], [q+1], ... *)
Fixpoint table_rows (clr : bashcolors) (q : nat)
    (cs bs : list (list string)) (bn : Z) : list row :=
  match cs, bs with
  | c :: cs', b :: bs' =>
      rows_of clr (rights_of c) (Z.of_nat q) (Py.len b) 0 c b bn
        ++ table_rows clr (S q) cs' bs' (bn + Py.len b)
  | _, _ => []
  end.

(** The bits of a byte string, as [BitArray] numbers them. *)
Definition bytes_bits (bs : list byte) : list bool :=
  bs ≫= λ b, BitArray.nibble_bits (byte_val b / 16)
             ++ BitArray.nibble_bits (byte_val b mod 16).

(** The access field of a trailer: its bytes 6 to 9. *)
Definition access_field (trailer : list byte) : list bool :=
  bytes_bits (Py.slice trailer 6 10).

(** The entries that [accbit_info] stores for a small sector. *)
Definition small_rights (acc : list bool) : gmap Z accval :=
  <[3 := checked acc [8; 20; 16] [4; 0; 12]]>
    (<[2 := checked acc [9; 21; 17] [5; 1; 13]]>
       (<[1 := checked acc [10; 22; 18] [6; 2; 14]]>
          (<[0 := checked acc [11; 23; 19] [7; 3; 15]]> ∅))).

(** The only entry that [accbit_info] stores for a large sector. *)
Definition large_rights (acc : list bool) : gmap Z accval :=
  <[15 := checked acc [8; 20; 16] [4; 0; 12]]> ∅.

(** A matrix whose trailers decode and whose blocks can be tested. *)
Definition ok_matrix (clear : list (list string)) : Prop :=
  clear ≠ [] ∧
  Forall (λ sec, is_Ok (trailer_rights sec) ∧
                 Forall (λ blk, is_Ok (is_value_block blk)) sec) clear.

(** The header printed for the coloured matrix [bm]. *)
Definition header_of (opts : Options) (data : list byte)
    (bm : list (list string)) (sector_number : Z) : header :=
  let block0 := default ""%string (bm !! 0%nat ≫= (.!! 0%nat)) in
  let sakStart :=
    if UID_LENGTH opts =? 4 then UID_LENGTH opts * 2 + 2
    else UID_LENGTH opts * 2 in
  {| hdr_file_size := Py.len data;
     hdr_sectors := sector_number;
     hdr_uid := if UID_LENGTH opts =? 4 then Py.str_slice block0 0 8
                else Py.str_slice block0 0 14;
     hdr_bcc := Py.str_slice block0 8 10;
     hdr_sak := Py.str_slice block0 sakStart (sakStart + 2);
     hdr_atqa := Py.str_slice block0 (sakStart + 2) (sakStart + 6) |}.

(** The size that stops the sector loop. *)
Definition effective_size (opts : Options) (data : list byte) : Z :=
  if FORCE_1K opts then 1024 else Py.len data.

(** The block counts that the sector loop gives for a size. *)
Definition layout_shape (data_size : Z) : list nat :=
  (λ se, Z.to_nat ((se.2 - se.1) / 16)) <$> (bounds_of data_size).1.

(** A trailer in transport configuration: keys ff..ff, access field
    ff078069. *)
Definition transport_trailer : list byte :=
  replicate 6 xff ++ [xff; x07; x80; x69] ++ replicate 6 xff.

(** A sector of [n_blocks] blocks, all zero but the trailer. *)
Definition transport_sector (n_blocks : nat) : list byte :=
  replicate (16 * (n_blocks - 1)) x00 ++ transport_trailer.

(** A 4096-byte dump of such sectors. *)
Definition transport_dump_4k : list byte :=
  mjoin (replicate 32 (transport_sector 4))
    ++ mjoin (replicate 8 (transport_sector 16)).

(** The positions of the check bits (the stored inverses) of a group. *)
Definition check_positions (g : Z) : list Z :=
  if (g =? 3) || (g =? 15) then [4; 0; 12] else [7 - g; 3 - g; 15 - g].


(** The number of bits that [accbits_for_blocknum] needs for a group: one
    more than the highest position it reads. *)
Definition bits_needed (g : Z) : Z :=
  if (g =? 3) || (g =? 15) then 21 else 24 - g.

(** The bitwise inverse of a byte. *)
Definition inverse_byte (x : byte) : byte :=
  byte_of_val (Z.lxor (byte_val x) 255).

(** The value-block format: a 4-byte value, its inverse, the value again,
    then an address byte as [a], inverse, [a], inverse. *)
Definition make_value_block (v : list byte) (a : byte) : list byte :=
  v ++ (inverse_byte <$> v) ++ v
    ++ [a; inverse_byte a; a; inverse_byte a].

(** The comparisons of [is_value_block] on the bytes [b]. *)
Definition value_pattern (b : list byte) : bool :=
  ((((at_ b 0 =? at_ b 8) && (Z.lxor (at_ b 0) 255 =? at_ b 4))
    && ((at_ b 1 =? at_ b 9) && (Z.lxor (at_ b 1) 255 =? at_ b 5)))
    && ((at_ b 2 =? at_ b 10) && (Z.lxor (at_ b 2) 255 =? at_ b 6))
    && ((at_ b 3 =? at_ b 11) && (Z.lxor (at_ b 3) 255 =? at_ b 7)))
    && (((at_ b 12 =? at_ b 14) && (at_ b 13 =? at_ b 15))
        && (Z.lxor (at_ b 12) 255 =? at_ b 13)).

(** The flags of the command line that are present, in the order in which
    [main] tests for them. *)
Definition flag_args (n one seven : bool) : list string :=
  (if n then ["-n"%string] else []) ++ (if one then ["-1"%string] else [])
    ++ (if seven then ["-7"%string] else []).

(** The state in which [main] calls [print_info] after the flags. *)
Definition flagged_colors (n : bool) (clr : bashcolors) : bashcolors :=
  if n then no_colors else clr.

Definition flagged_options (one seven : bool) (opts : Options) : Options :=
  {| FORCE_1K := one || FORCE_1K opts;
     UID_LENGTH := if seven then 7 else UID_LENGTH opts |}.

(** The offset at which sector [n] starts: 64 bytes for each of the first
    32 sectors, 256 bytes for each one after them. *)
Definition boundary (n : Z) : Z :=
  if n <=? 32 then 64 * n else 2048 + 256 * (n - 32).

(** The number of blocks of sector [q]. *)
Definition blocks_in (q : nat) : nat := if (q <? 32)%nat then 4 else 16.

(** The number of the block [z] of sector [q] in the whole dump. *)
Definition block_index (q z : nat) : nat :=
  if (q <=? 32)%nat then 4 * q + z else 128 + 16 * (q - 32) + z.

(** The bytes of block number [k] of a dump. *)
Definition block_bytes (data : list byte) (k : nat) : list byte :=
  Py.slice data (16 * Z.of_nat k) (16 * Z.of_nat k + 16).

(** The rights that the trailer bytes [b] give to a sector of [n]
    blocks. *)
Definition sector_rights (n : nat) (b : list byte) : gmap Z accval :=
  if decide (n = 16%nat) then large_rights (access_field b)
  else small_rights (access_field b).

(** The bytes of the trailer of sector [q]. *)
Definition trailer_bytes (data : list byte) (q : nat) : list byte :=
  block_bytes data (block_index q (blocks_in q - 1)).

(** The text of block [z] of sector [q] after the trailers are coloured. *)
Definition painted_text (clr : bashcolors) (data : list byte) (q z : nat)
  : string :=
  if decide (z = (blocks_in q - 1)%nat)
  then paint clr (hexlify (block_bytes data (block_index q z)))
  else hexlify (block_bytes data (block_index q z)).

(** The line that the report has for block [z] of sector [q]. *)
Definition block_row (clr : bashcolors) (data : list byte) (q z : nat)
  : row :=
  row_of clr (sector_rights (blocks_in q) (trailer_bytes data q))
    (Z.of_nat q) (Z.of_nat (blocks_in q)) z
    (hexlify (block_bytes data (block_index q z)))
    (painted_text clr data q z) (Z.of_nat (block_index q z)).

(** The two nibbles of a byte. *)
Definition high_nibble (b : byte) : Z := byte_val b / 16.
Definition low_nibble (b : byte) : Z := byte_val b mod 16.

(** * Properties *)

(** ** Results *)

Lemma bind_Ok {A B} (m : res A) (f : A → res B) a :
  m = Ok a → m ≫= f = f a.
Proof. by intros ->. Qed.

Lemma bind_Ok_inv {A B} (m : res A) (f : A → res B) b :
  m ≫= f = Ok b → ∃ a, m = Ok a ∧ f a = Ok b.
Proof. destruct m as [a|e]; [by exists a | done]. Qed.

(** ** Indexing *)

Lemma index_lookup {A} (l : list A) (i : nat) x :
  l !! i = Some x → Py.index l (Z.of_nat i) = Ok x.
Proof.
  intros Hl. pose proof (lookup_lt_Some _ _ _ Hl) as Hlt.
  unfold Py.index, Py.len.
  destruct (Z.ltb_spec (Z.of_nat i) 0) as [?|_]; [lia|].
  destruct (Z.leb_spec 0 (Z.of_nat i)) as [_|?]; [|lia].
  destruct (Z.ltb_spec (Z.of_nat i) (Z.of_nat (length l))) as [_|?]; [|lia].
  by rewrite Nat2Z.id, Hl.
Qed.

Lemma index_bit (a : list bool) (i : Z) :
  0 ≤ i < Py.len a → Py.index a i = Ok (bit a i).
Proof.
  intros Hi. unfold Py.len in Hi.
  destruct (lookup_lt_is_Some_2 a (Z.to_nat i)) as [x Hx]; [lia|].
  unfold bit. rewrite Hx. simpl.
  rewrite <- (Z2Nat.id i) by lia. by apply index_lookup.
Qed.

Lemma index_out_of_range {A} (l : list A) (i : Z) :
  Py.len l ≤ i → Py.index l i = Raise IndexError.
Proof.
  intros Hi. unfold Py.index, Py.len in *.
  destruct (Z.ltb_spec i 0) as [?|_]; [lia|].
  destruct (Z.leb_spec 0 i) as [_|?]; [|lia].
  by destruct (Z.ltb_spec i (Z.of_nat (length l))) as [?|_]; [lia|].
Qed.

(** ** The access-bit extractor *)

Lemma bin_inj (x y : list bool) : BitArray.bin x = BitArray.bin y → x = y.
Proof.
  revert y. induction x as [|b x IH]; intros [|c y]; simpl; try done.
  intros [= Hbc Hxy]. f_equal; [by destruct b, c | by apply IH].
Qed.

#[local] Arguments pick : simpl never.

Lemma pick3 (a : list bool) (i j k : Z) :
  0 ≤ i < Py.len a → 0 ≤ j < Py.len a → 0 ≤ k < Py.len a →
  pick a [i; j; k] = Ok [bit a i; bit a j; bit a k].
Proof.
  intros Hi Hj Hk. unfold pick. cbn [mapM].
  by rewrite !index_bit by done.
Qed.

Lemma compare_checked (a : list bool) (rd ck : list Z) :
  (if decide (BitArray.bin (bit a <$> rd)
              = BitArray.bin (BitArray.invert (bit a <$> ck)))
   then mret (Bits (bit a <$> rd)) else mret PyFalse)
  = Ok (checked a rd ck).
Proof.
  unfold checked, BitArray.invert.
  destruct (decide (BitArray.bin _ = _)) as [Heq|Hne].
  - apply bin_inj in Heq. by rewrite decide_True.
  - rewrite decide_False; [done|]. intros Heq. apply Hne. by rewrite Heq.
Qed.

Lemma accbits_for_blocknum_small (a : list bool) (g : Z) :
  Py.len a = 32 → 0 ≤ g ≤ 2 →
  accbits_for_blocknum a g
  = Ok (checked a [11 - g; 23 - g; 19 - g] [7 - g; 3 - g; 15 - g]).
Proof.
  intros Ha Hg. unfold accbits_for_blocknum.
  assert (g = 0 ∨ g = 1 ∨ g = 2) as [-> | [-> | ->]] by lia; simpl;
    rewrite !pick3 by lia; exact (compare_checked a [_; _; _] [_; _; _]).
Qed.

Lemma accbits_for_blocknum_trailer (a : list bool) (g : Z) :
  Py.len a = 32 → g = 3 ∨ g = 15 →
  accbits_for_blocknum a g = Ok (checked a [8; 20; 16] [4; 0; 12]).
Proof.
  intros Ha Hg. unfold accbits_for_blocknum.
  destruct Hg as [-> | ->]; simpl;
    rewrite !pick3 by lia; exact (compare_checked a [_; _; _] [_; _; _]).
Qed.

(** C1. For a 32-bit access field and a group [g] in 0..2 the extractor
    reads the code at positions 11-g, 23-g, 19-g and compares it, bit by
    bit and in that order, with the complements of the bits at 7-g, 3-g,
    15-g; for group 3 or 15 the positions are 8, 20, 16 against 4, 0, 12.
    When the three pairs match the result is the code in reading order,
    otherwise it is [False], the invalid marker. *)
Theorem accbits_for_blocknum_spec (a : list bool) (g : Z) :
  length a = 32%nat →
  (0 ≤ g ≤ 2 →
     let matches :=
       bit a (11 - g) = negb (bit a (7 - g)) ∧
       bit a (23 - g) = negb (bit a (3 - g)) ∧
       bit a (19 - g) = negb (bit a (15 - g)) in
     (matches →
        accbits_for_blocknum a g
        = Ok (Bits [bit a (11 - g); bit a (23 - g); bit a (19 - g)])) ∧
     (¬ matches → accbits_for_blocknum a g = Ok PyFalse)) ∧
  (g = 3 ∨ g = 15 →
     let matches :=
       bit a 8 = negb (bit a 4) ∧
       bit a 20 = negb (bit a 0) ∧
       bit a 16 = negb (bit a 12) in
     (matches →
        accbits_for_blocknum a g = Ok (Bits [bit a 8; bit a 20; bit a 16])) ∧
     (¬ matches → accbits_for_blocknum a g = Ok PyFalse)).
Proof.
  intros Hlen.
  assert (Py.len a = 32) as Ha by (unfold Py.len; lia).
  split.
  - intros Hg matches. rewrite accbits_for_blocknum_small by done.
    unfold checked. simpl. split.
    + intros (H1 & H2 & H3). rewrite decide_True; [done|]. congruence.
    + intros Hn. rewrite decide_False; [done|].
      intros [= H1 H2 H3]. by apply Hn.
  - intros Hg matches. rewrite accbits_for_blocknum_trailer by done.
    unfold checked. simpl. split.
    + intros (H1 & H2 & H3). rewrite decide_True; [done|]. congruence.
    + intros Hn. rewrite decide_False; [done|].
      intros [= H1 H2 H3]. by apply Hn.
Qed.

Lemma accbits_for_blocknum_spec_witness :
  length transport_field = 32%nat ∧
  accbits_for_blocknum transport_field 0 = Ok (Bits [false; false; false]).
Proof.
  split; [reflexivity|].
  destruct (accbits_for_blocknum_spec transport_field 0 eq_refl) as [H _].
  destruct (H (conj (Z.le_refl 0) (Zle_0_pos 2))) as [Hm _].
  apply Hm. vm_compute. auto.
Defined.

(** ** The permission tables *)

(** C8. Both permission tables are total over the eight three-bit codes
    and hold nothing else: on each code, each interpreter returns the
    description that its table stores under that code, and this
    description is neither "unknown" nor empty. *)
Theorem permission_tables_total (b1 b2 b3 : bool) :
  ∃ ds dd : string,
    permissions_sector !! BitArray.bin [b1; b2; b3] = Some ds ∧
    permissions_data !! BitArray.bin [b1; b2; b3] = Some dd ∧
    accbits_to_permission_sector (Bits [b1; b2; b3]) = ds ∧
    accbits_to_permission_data (Bits [b1; b2; b3]) = dd ∧
    ds ≠ "unknown"%string ∧ dd ≠ "unknown"%string ∧
    ds ≠ ""%string ∧ dd ≠ ""%string ∧
    size permissions_sector = 8%nat ∧ size permissions_data = 8%nat.
Proof.
  destruct b1, b2, b3; eexists _, _; vm_compute;
    repeat split; discriminate.
Qed.

Lemma table_entry_nonempty (l : list (string * string)) (k d : string) :
  Forall (λ kd, kd.2 ≠ ""%string) l →
  (list_to_map l : gmap string string) !! k = Some d → d ≠ ""%string.
Proof.
  intros Hl Hk. apply elem_of_list_to_map_2 in Hk.
  rewrite Forall_forall in Hl. exact (Hl _ Hk).
Qed.

Lemma bin_length (b : list bool) :
  String.length (BitArray.bin b) = length b.
Proof. induction b as [|x b IH]; simpl; congruence. Qed.

Lemma table_key_length (l : list (string * string)) (k d : string) :
  Forall (λ kd, String.length kd.1 = 3%nat) l →
  (list_to_map l : gmap string string) !! k = Some d →
  String.length k = 3%nat.
Proof.
  intros Hl Hk. apply elem_of_list_to_map_2 in Hk.
  rewrite Forall_forall in Hl. exact (Hl _ Hk).
Qed.

(** C10, as stated, fails: a [BitArray] that is no three-bit code is not
    answered with the empty string but with "unknown". *)
Lemma not_code_not_empty :
  ¬ valid_code (Bits [true]) ∧
  accbits_to_permission_sector (Bits [true]) = "unknown"%string ∧
  accbits_to_permission_data (Bits [true]) = "unknown"%string ∧
  accbits_to_permission_sector (Bits [true]) ≠ ""%string ∧
  accbits_to_permission_data (Bits [true]) ≠ ""%string.
Proof.
  split; [intros (b1 & b2 & b3 & [=])|].
  vm_compute. repeat split; discriminate.
Qed.

(** C10, amended. An input that is no [BitArray] (the program's only such
    value is [False], the invalid marker) makes both interpreters return
    the empty string, which is neither "unknown" nor a description of
    either table; its access column reads ERR and its permission column is
    empty.  A [BitArray] that is no three-bit code is answered with
    "unknown". *)
Theorem invalid_marker_renders_empty (clr : bashcolors) (v : accval)
    (q z n_blocks : Z) :
  (∀ b, v ≠ Bits b) →
  accbits_to_permission_sector v = ""%string ∧
  accbits_to_permission_data v = ""%string ∧
  (∀ k d, permissions_sector !! k = Some d ∨ permissions_data !! k = Some d →
          d ≠ ""%string) ∧
  format_accbits clr v = (WARNING clr +:+ "ERR" +:+ ENDC clr)%string ∧
  (¬ (q = 0 ∧ z = 0) → block_permissions q z n_blocks v = ""%string) ∧
  (∀ b, length b ≠ 3%nat →
        accbits_to_permission_sector (Bits b) = "unknown"%string ∧
        accbits_to_permission_data (Bits b) = "unknown"%string).
Proof.
  intros Hv. destruct v as [b|]; [by destruct (Hv b)|].
  repeat split; try done.
  - intros k d [Hk|Hk]; revert Hk; apply table_entry_nonempty;
      repeat constructor; done.
  - intros Hqz. unfold block_permissions.
    destruct (Z.eqb_spec q 0) as [->|?], (Z.eqb_spec z 0) as [->|?];
      cbn [andb]; [by destruct Hqz | | |];
      by destruct (_ =? n_blocks - 1).
  - simpl. destruct (permissions_sector !! _) as [d|] eqn:Hk; [|done].
    apply table_key_length in Hk; [|repeat constructor].
    rewrite bin_length in Hk. done.
  - simpl. destruct (permissions_data !! _) as [d|] eqn:Hk; [|done].
    apply table_key_length in Hk; [|repeat constructor].
    rewrite bin_length in Hk. done.
Qed.

Lemma invalid_marker_renders_empty_witness :
  (∀ b, PyFalse ≠ Bits b) ∧
  accbits_to_permission_data PyFalse = ""%string.
Proof.
  split; [discriminate|].
  exact (proj1 (proj2 (invalid_marker_renders_empty no_colors PyFalse 0 1 4
                         (λ b, @eq_ind accval PyFalse
                            (λ v, match v with PyFalse => True | _ => False end)
                            I (Bits b))))).
Defined.

(** ** The size check *)

Lemma accepted_sizes_spec (n : Z) :
  n ∈ accepted_sizes ↔ n = 320 ∨ n = 1024 ∨ n = 4096.
Proof.
  unfold accepted_sizes. rewrite !elem_of_union, !elem_of_singleton. lia.
Qed.

(** C7. A dump whose length is none of 320, 1024 and 4096 makes
    [print_info] exit with the message that gives the length, whatever the
    options are, and before the sector loop takes a single step: the
    outcome is the same with no fuel at all. *)
Theorem wrong_size_exits (fuel : nat) (clr : bashcolors) (opts : Options)
    (data : list byte) :
  length data ≠ 320%nat → length data ≠ 1024%nat → length data ≠ 4096%nat →
  print_info fuel clr opts data
  = Some (Raise (SystemExit
      ("Wrong file size: " +:+ pretty (Z.of_nat (length data)) +:+ " bytes."
        +:+ newline +:+ "Only 320, 1024 or 4096 bytes allowed."))) ∧
  print_info 0 clr opts data = print_info fuel clr opts data.
Proof.
  intros H1 H2 H3. unfold print_info.
  rewrite !decide_True; [done| |];
    rewrite accepted_sizes_spec; unfold Py.len; lia.
Qed.

Lemma wrong_size_exits_witness :
  length (zero_dump 100) ≠ 320%nat ∧
  print_info 0 ansi_colors {| FORCE_1K := true; UID_LENGTH := 4 |}
    (zero_dump 100)
  = Some (Raise (SystemExit
      ("Wrong file size: 100 bytes." +:+ newline
         +:+ "Only 320, 1024 or 4096 bytes allowed."))).
Proof.
  split; [vm_compute; discriminate|].
  destruct (wrong_size_exits 0 ansi_colors
              {| FORCE_1K := true; UID_LENGTH := 4 |} (zero_dump 100))
    as [H _]; [vm_compute; discriminate..|].
  vm_compute in H |- *. exact H.
Defined.

(** ** Hexadecimal text and back *)

#[local] Arguments byte_val : simpl never.
#[local] Arguments hex_char : simpl never.
#[local] Arguments byte_of_val : simpl never.
#[local] Arguments BitArray.hex_digit : simpl never.
#[local] Arguments is_space : simpl never.

Lemma hex_byte (b : byte) :
  is_space (hex_char (byte_val b / 16)) = false ∧
  BitArray.hex_digit (hex_char (byte_val b / 16)) = Some (byte_val b / 16) ∧
  BitArray.hex_digit (hex_char (byte_val b mod 16))
  = Some (byte_val b mod 16) ∧
  byte_of_val (16 * (byte_val b / 16) + byte_val b mod 16) = b.
Proof. destruct b; vm_compute; done. Qed.

Lemma fromhex_hexlify (bs : list byte) : fromhex (hexlify bs) = Ok bs.
Proof.
  induction bs as [|b bs IH]; [done|].
  destruct (hex_byte b) as (Hs & Hh & Hl & Hb).
  cbn [hexlify fromhex]. rewrite Hs, Hh, Hl, IH. cbn [mbind res_bind mret res_ret].
  by rewrite Hb.
Qed.

(** ** The value-block test *)

Lemma and_then_Ok (x y : bool) : and_then (Ok x) (Ok y) = Ok (x && y).
Proof. by destruct x. Qed.

Lemma index_bytes (b : list byte) (i : Z) :
  0 ≤ i < Py.len b →
  Py.index (byte_val <$> b) i = Ok (at_ b (Z.to_nat i)).
Proof.
  intros Hi. unfold Py.len in Hi.
  destruct (lookup_lt_is_Some_2 b (Z.to_nat i)) as [x Hx]; [lia|].
  unfold at_. rewrite Hx. simpl.
  rewrite <- (Z2Nat.id i) at 1 by lia. apply index_lookup.
  by rewrite list_lookup_fmap, Hx.
Qed.

Lemma same_at_bytes (b : list byte) (i j : Z) :
  0 ≤ i < Py.len b → 0 ≤ j < Py.len b →
  same_at (byte_val <$> b) i j
  = Ok (at_ b (Z.to_nat i) =? at_ b (Z.to_nat j)).
Proof. intros Hi Hj. unfold same_at. by rewrite !index_bytes. Qed.

Lemma inverse_at_bytes (b : list byte) (i j : Z) :
  0 ≤ i < Py.len b → 0 ≤ j < Py.len b →
  inverse_at (byte_val <$> b) i j
  = Ok (Z.lxor (at_ b (Z.to_nat i)) 255 =? at_ b (Z.to_nat j)).
Proof. intros Hi Hj. unfold inverse_at. by rewrite !index_bytes. Qed.

Lemma is_value_block_bytes (b : list byte) :
  length b = 16%nat →
  is_value_block (hexlify b)
  = Ok (((((at_ b 0 =? at_ b 8) && (Z.lxor (at_ b 0) 255 =? at_ b 4))
          && ((at_ b 1 =? at_ b 9) && (Z.lxor (at_ b 1) 255 =? at_ b 5)))
          && ((at_ b 2 =? at_ b 10) && (Z.lxor (at_ b 2) 255 =? at_ b 6))
          && ((at_ b 3 =? at_ b 11) && (Z.lxor (at_ b 3) 255 =? at_ b 7)))
          && (((at_ b 12 =? at_ b 14) && (at_ b 13 =? at_ b 15))
              && (Z.lxor (at_ b 12) 255 =? at_ b 13))).
Proof.
  intros Hlen. assert (Py.len b = 16) as Hb by (unfold Py.len; lia).
  unfold is_value_block. rewrite fromhex_hexlify. cbn [mbind res_bind].
  rewrite !same_at_bytes, !inverse_at_bytes by lia.
  by rewrite !and_then_Ok.
Qed.

(** C5. On the text of a 16-byte block [is_value_block] answers true
    exactly when bytes 0..3 are repeated at 8..11 and inverted at 4..7 and
    bytes 12, 13 are repeated at 14, 15 with byte 13 the inverse of byte
    12.  It accepts the canonical block 00000001 fffffffe 00000001
    01fe01fe and rejects that block with any one of its 128 bits
    flipped. *)
Theorem is_value_block_spec :
  (∀ b : list byte, length b = 16%nat →
     ∃ v : bool, is_value_block (hexlify b) = Ok v ∧
       (v = true ↔
          (at_ b 0 = at_ b 8 ∧ Z.lxor (at_ b 0) 255 = at_ b 4) ∧
          (at_ b 1 = at_ b 9 ∧ Z.lxor (at_ b 1) 255 = at_ b 5) ∧
          (at_ b 2 = at_ b 10 ∧ Z.lxor (at_ b 2) 255 = at_ b 6) ∧
          (at_ b 3 = at_ b 11 ∧ Z.lxor (at_ b 3) 255 = at_ b 7) ∧
          (at_ b 12 = at_ b 14 ∧ at_ b 13 = at_ b 15 ∧
           Z.lxor (at_ b 12) 255 = at_ b 13))) ∧
  hexlify canonical_value_block = "00000001fffffffe0000000101fe01fe"%string ∧
  is_value_block (hexlify canonical_value_block) = Ok true ∧
  (∀ i j : nat, (i < 16)%nat → (j < 8)%nat →
     flip_bit canonical_value_block i j ≠ canonical_value_block ∧
     length (flip_bit canonical_value_block i j) = 16%nat ∧
     is_value_block (hexlify (flip_bit canonical_value_block i j))
     = Ok false).
Proof.
  split; [|split; [reflexivity|split; [reflexivity|]]].
  - intros b Hlen. eexists. split; [by apply is_value_block_bytes|].
    rewrite !andb_true_iff, !Z.eqb_eq. tauto.
  - intros i j Hi Hj.
    do 16 (destruct i as [|i];
           [do 8 (destruct j as [|j]; [by vm_compute|]); lia|]).
    lia.
Qed.

Lemma is_value_block_spec_witness :
  length canonical_value_block = 16%nat ∧
  ∃ v : bool, is_value_block (hexlify canonical_value_block) = Ok v.
Proof.
  split; [reflexivity|].
  destruct (proj1 is_value_block_spec canonical_value_block eq_refl)
    as (v & Hv & _).
  exists v. exact Hv.
Defined.

(** ** Slices *)

Lemma slice_take_drop {A} (l : list A) (lo hi : Z) :
  0 ≤ lo → 0 ≤ hi →
  Py.slice l lo hi
  = take (Z.to_nat hi - Z.to_nat lo) (drop (Z.to_nat lo) l).
Proof.
  intros Hlo Hhi. unfold Py.slice, Py.clamp, Py.len.
  destruct (Z.ltb_spec lo 0) as [?|_]; [lia|].
  destruct (Z.ltb_spec hi 0) as [?|_]; [lia|].
  destruct (Z.le_gt_cases (Z.of_nat (length l)) lo) as [Hge|Hlt].
  - rewrite !drop_ge by lia. by rewrite !take_nil.
  - rewrite (Z.min_l lo) by lia.
    destruct (Z.le_gt_cases hi (Z.of_nat (length l))) as [Hle|Hgt].
    + rewrite Z.min_l by lia. f_equal. lia.
    + rewrite Z.min_r by lia.
      rewrite !take_ge; [done| |]; rewrite length_drop; lia.
Qed.

Lemma slice_length {A} (l : list A) (lo hi : Z) :
  0 ≤ lo ≤ hi → hi ≤ Py.len l →
  length (Py.slice l lo hi) = Z.to_nat (hi - lo).
Proof.
  intros Hlo Hhi. unfold Py.len in Hhi.
  rewrite slice_take_drop by lia.
  rewrite length_take, length_drop. lia.
Qed.

Lemma range_unit (n : nat) :
  Py.range 0 (Z.of_nat n) 1 = Z.of_nat <$> seq 0 n.
Proof.
  unfold Py.range.
  replace (Z.of_nat n - 0 + 1 - 1) with (Z.of_nat n) by lia.
  rewrite Z.div_1_r, Nat2Z.id.
  apply list_fmap_ext. intros _ k _. lia.
Qed.

Lemma range_len {A} (l : list A) :
  Py.range 0 (Py.len l) 1 = Z.of_nat <$> seq 0 (length l).
Proof. apply range_unit. Qed.

Lemma hexlify_chars (bs : list byte) :
  list_ascii_of_string (hexlify bs) = hex_chars bs.
Proof. induction bs as [|b bs IH]; simpl; congruence. Qed.

Lemma chars_hexlify (bs : list byte) :
  string_of_list_ascii (hex_chars bs) = hexlify bs.
Proof. induction bs as [|b bs IH]; simpl; congruence. Qed.

Lemma hex_chars_length (bs : list byte) :
  length (hex_chars bs) = (2 * length bs)%nat.
Proof. induction bs as [|b bs IH]; simpl; lia. Qed.

Lemma hexlify_length (bs : list byte) :
  Py.str_len (hexlify bs) = 2 * Py.len bs.
Proof.
  unfold Py.str_len, Py.len.
  induction bs as [|b bs IH]; [done|].
  cbn [hexlify String.length length]. lia.
Qed.

Lemma hex_chars_drop (n : nat) (bs : list byte) :
  drop (2 * n) (hex_chars bs) = hex_chars (drop n bs).
Proof.
  revert bs. induction n as [|n IH]; intros bs; [done|].
  destruct bs as [|b bs]; [done|].
  replace (2 * S n)%nat with (S (S (2 * n))) by lia. simpl. apply IH.
Qed.

Lemma hex_chars_take (n : nat) (bs : list byte) :
  take (2 * n) (hex_chars bs) = hex_chars (take n bs).
Proof.
  revert bs. induction n as [|n IH]; intros bs; [done|].
  destruct bs as [|b bs]; [done|].
  replace (2 * S n)%nat with (S (S (2 * n))) by lia. simpl.
  by rewrite <- IH.
Qed.

(** A slice of the hexadecimal text at even bounds is the text of the
    slice of the bytes. *)
Lemma str_slice_hexlify (bs : list byte) (lo hi : Z) :
  0 ≤ lo → 0 ≤ hi →
  Py.str_slice (hexlify bs) (2 * lo) (2 * hi) = hexlify (Py.slice bs lo hi).
Proof.
  intros Hlo Hhi. unfold Py.str_slice.
  rewrite hexlify_chars, !slice_take_drop by lia.
  replace (Z.to_nat (2 * lo)) with (2 * Z.to_nat lo)%nat by lia.
  replace (Z.to_nat (2 * hi) - 2 * Z.to_nat lo)%nat
    with (2 * (Z.to_nat hi - Z.to_nat lo))%nat by lia.
  by rewrite hex_chars_drop, hex_chars_take, chars_hexlify.
Qed.

(** ** The sector loop *)

Lemma split_blocks_hexlify (bs : list byte) :
  split_blocks (hexlify bs) = hexlify <$> byte_blocks bs.
Proof.
  unfold split_blocks, byte_blocks, Py.range.
  rewrite hexlify_length, <- !list_fmap_compose.
  assert (0 ≤ Py.len bs) as Hn by (unfold Py.len; lia).
  replace ((2 * Py.len bs - 0 + 32 - 1) / 32)
    with ((Py.len bs - 0 + 16 - 1) / 16)
    by (generalize dependent (Py.len bs); intros;
        Z.to_euclidean_division_equations; lia).
  apply list_fmap_ext. intros _ k _. simpl.
  replace (0 + 32 * Z.of_nat k) with (2 * (0 + 16 * Z.of_nat k)) by lia.
  replace (2 * (0 + 16 * Z.of_nat k) + 32)
    with (2 * (0 + 16 * Z.of_nat k + 16)) by lia.
  apply str_slice_hexlify; lia.
Qed.

Lemma byte_blocks_full (bs : list byte) (n : nat) :
  length bs = (16 * n)%nat →
  length (byte_blocks bs) = n ∧
  Forall (λ b, length b = 16%nat) (byte_blocks bs).
Proof.
  intros Hlen. unfold byte_blocks, Py.range.
  assert (Py.len bs = 16 * Z.of_nat n) as -> by (unfold Py.len; lia).
  replace ((16 * Z.of_nat n - 0 + 16 - 1) / 16) with (Z.of_nat n)
    by (Z.to_euclidean_division_equations; lia).
  rewrite Nat2Z.id. split; [by rewrite !length_fmap, length_seq|].
  rewrite <- list_fmap_compose. apply Forall_fmap, Forall_forall.
  intros k Hk. apply elem_of_seq in Hk. simpl.
  rewrite slice_length; unfold Py.len; lia.
Qed.

Lemma read_sectors_bounds (fuel : nat) (data : list byte) (data_size : Z)
    (blocksmatrix : list (list string)) (sector_number start end_ : Z) :
  read_sectors fuel data data_size blocksmatrix sector_number start end_
  = (λ r, (blocksmatrix ++ (sector_blocks data <$> r.1), r.2)) <$>
      sector_bounds fuel data_size sector_number start end_.
Proof.
  revert blocksmatrix sector_number start end_.
  induction fuel as [|fuel IH]; intros bm sn st en; [done|].
  cbn [read_sectors sector_bounds].
  destruct (if sn + 1 <? 32 then _ else _) as [st' en'] eqn:Hnext.
  destruct (st' =? data_size); [done|].
  rewrite IH. destruct (sector_bounds _ _ _ _ _) as [[bs n]|]; [|done].
  simpl. by rewrite <- app_assoc.
Qed.

Lemma sector_bounds_more (fuel extra : nat) (data_size sn st en : Z) r :
  sector_bounds fuel data_size sn st en = Some r →
  sector_bounds (fuel + extra) data_size sn st en = Some r.
Proof.
  revert sn st en r. induction fuel as [|fuel IH]; intros sn st en r; [done|].
  cbn [sector_bounds Nat.add].
  destruct (if sn + 1 <? 32 then _ else _) as [st' en'].
  destruct (st' =? data_size); [done|].
  destruct (sector_bounds fuel _ _ _ _) as [r'|] eqn:Hr; [|done].
  by rewrite (IH _ _ _ _ Hr).
Qed.

(** A sector whose bounds lie inside the dump, a multiple of 16 bytes
    apart, consists of full blocks. *)
Lemma sector_blocks_full (data : list byte) (s e : Z) (n : nat) :
  0 ≤ s → e ≤ Py.len data → e - s = 16 * Z.of_nat n →
  length (sector_blocks data (s, e)) = n ∧
  Forall hex_block (sector_blocks data (s, e)).
Proof.
  intros Hs He Hn. unfold sector_blocks. simpl.
  rewrite split_blocks_hexlify.
  destruct (byte_blocks_full (Py.slice data s e) n) as [Hl Hf].
  { rewrite slice_length by lia. lia. }
  split; [by rewrite length_fmap|].
  apply Forall_fmap. eapply Forall_impl; [exact Hf|].
  intros b Hb. by exists b.
Qed.

Lemma matrix_full (data : list byte) (bounds : list (Z * Z)) :
  Forall (λ se, 0 ≤ se.1 ∧ se.1 ≤ se.2 ∧ se.2 ≤ Py.len data ∧
                (se.2 - se.1) mod 16 = 0) bounds →
  length <$> (sector_blocks data <$> bounds)
  = (λ se, Z.to_nat ((se.2 - se.1) / 16)) <$> bounds ∧
  Forall (Forall hex_block) (sector_blocks data <$> bounds).
Proof.
  induction 1 as [|[s e] bounds (Hs & Hse & He & Hmod) _ [IHl IHf]];
    [by split|].
  simpl in Hs, Hse, He, Hmod.
  destruct (sector_blocks_full data s e (Z.to_nat ((e - s) / 16)))
    as [Hl Hf]; [lia..| |].
  { Z.to_euclidean_division_equations; lia. }
  rewrite !fmap_cons. split; [by rewrite Hl, IHl | by constructor].
Qed.

Lemma read_sectors_accepted (fuel0 fuel : nat) (data : list byte)
    (data_size : Z) (bounds : list (Z * Z)) (n : Z) :
  sector_bounds fuel0 data_size 0 0 64 = Some (bounds, n) →
  (fuel0 ≤ fuel)%nat →
  read_sectors fuel data data_size [] 0 0 64
  = Some (sector_blocks data <$> bounds, n).
Proof.
  intros Hb Hfuel. rewrite read_sectors_bounds.
  replace fuel with (fuel0 + (fuel - fuel0))%nat by lia.
  by rewrite (sector_bounds_more _ _ _ _ _ _ _ Hb).
Qed.

(** The layout read with the bounds of [sector_bounds], when these lie
    inside the dump: full blocks only. *)
Lemma layout_of_bounds (fuel0 fuel : nat) (data : list byte)
    (data_size : Z) (bounds : list (Z * Z)) (n : Z) :
  sector_bounds fuel0 data_size 0 0 64 = Some (bounds, n) →
  (fuel0 ≤ fuel)%nat →
  bool_decide (Forall (λ se, 0 ≤ se.1 ∧ se.1 ≤ se.2 ∧ se.2 ≤ Py.len data ∧
                             (se.2 - se.1) mod 16 = 0) bounds) = true →
  ∃ bm, read_sectors fuel data data_size [] 0 0 64 = Some (bm, n) ∧
        shape bm = (λ se, Z.to_nat ((se.2 - se.1) / 16)) <$> bounds ∧
        Forall (Forall hex_block) bm.
Proof.
  intros Hb Hfuel Hin. apply bool_decide_eq_true_1 in Hin.
  exists (sector_blocks data <$> bounds).
  split; [by eapply read_sectors_accepted|].
  by apply matrix_full.
Qed.




(** ** The trailer loop *)

Lemma index_last {A} (l : list A) :
  Py.index l (Py.len l - 1)
  = match last l with Some x => Ok x | None => Raise IndexError end.
Proof.
  destruct (last l) as [x|] eqn:Hl.
  - rewrite last_lookup in Hl. pose proof (lookup_lt_Some _ _ _ Hl).
    replace (Py.len l - 1) with (Z.of_nat (pred (length l)))
      by (unfold Py.len; lia).
    by apply index_lookup.
  - apply last_None in Hl. by subst l.
Qed.

Lemma set_item_nat {A} (l : list A) (i : nat) (x : A) :
  (i < length l)%nat → Py.set_item l (Z.of_nat i) x = Ok (<[i := x]> l).
Proof.
  intros Hi. unfold Py.set_item, Py.len.
  destruct (Z.ltb_spec (Z.of_nat i) 0) as [?|_]; [lia|].
  destruct (Z.leb_spec 0 (Z.of_nat i)) as [_|?]; [|lia].
  destruct (Z.ltb_spec (Z.of_nat i) (Z.of_nat (length l))) as [_|?]; [|lia].
  by rewrite Nat2Z.id.
Qed.

Lemma paint_trailer_step (clr : bashcolors) (c : nat)
    (bm : list (list string)) (br : gmap Z (gmap Z accval))
    (sec : list string) (r : gmap Z accval) :
  bm !! c = Some sec → trailer_rights sec = Ok r →
  paint_trailer clr (Z.of_nat c) bm br
  = Ok (<[c := painted clr sec]> bm, <[Z.of_nat c := r]> br).
Proof.
  intros Hc Hr. unfold paint_trailer, trailer_rights, painted in *.
  rewrite (index_lookup _ _ _ Hc). cbn [mbind res_bind].
  rewrite index_last in *.
  destruct (last sec) as [trailer|] eqn:Hl; [|done].
  rewrite last_lookup in Hl. pose proof (lookup_lt_Some _ _ _ Hl).
  cbn [mbind res_bind] in *.
  destruct (BitArray.of_hex _) as [acc|]; [|done].
  cbn [mbind res_bind] in *. rewrite Hr. cbn [mbind res_bind].
  replace (Py.len sec - 1) with (Z.of_nat (pred (length sec)))
    by (unfold Py.len; lia).
  rewrite set_item_nat by lia. cbn [mbind res_bind].
  rewrite set_item_nat by (by eapply lookup_lt_Some). done.
Qed.

Lemma paint_trailers_spec (clr : bashcolors)
    (todo : list (list string)) (rs : list (gmap Z accval)) :
  Forall2 (λ sec r, trailer_rights sec = Ok r) todo rs →
  ∀ (done_ : list (list string)) (br : gmap Z (gmap Z accval)),
  paint_trailers clr (Z.of_nat <$> seq (length done_) (length todo))
    (done_ ++ todo) br
  = Ok (done_ ++ (painted clr <$> todo), add_rights (length done_) rs br).
Proof.
  induction 1 as [|sec r todo rs Hr _ IH]; intros done_ br.
  - by rewrite !app_nil_r.
  - cbn [length seq fmap list_fmap paint_trailers add_rights].
    rewrite (paint_trailer_step clr _ _ _ sec r);
      [|by rewrite list_lookup_middle|done].
    cbn [mbind res_bind].
    replace (<[length done_ := painted clr sec]> (done_ ++ sec :: todo))
      with ((done_ ++ [painted clr sec]) ++ todo).
    2:{ rewrite insert_app_r_alt, Nat.sub_diag by lia.
        by rewrite <- app_assoc. }
    replace (S (length done_)) with (length (done_ ++ [painted clr sec]))
      by (rewrite length_app; simpl; lia).
    rewrite IH. by rewrite <- app_assoc.
Qed.

Lemma painted_length (clr : bashcolors) (sec : list string) :
  length (painted clr sec) = length sec.
Proof. unfold painted. destruct (last sec); by rewrite ?length_insert. Qed.

Lemma add_rights_lookup_lt (rs : list (gmap Z accval)) (k : nat)
    (br : gmap Z (gmap Z accval)) (c : Z) :
  c < Z.of_nat k → add_rights k rs br !! c = br !! c.
Proof.
  revert k br. induction rs as [|r rs IH]; intros k br Hc; [done|].
  simpl. rewrite IH by lia. apply lookup_insert_ne. lia.
Qed.

Lemma add_rights_lookup (rs : list (gmap Z accval)) (k i : nat)
    (br : gmap Z (gmap Z accval)) (r : gmap Z accval) :
  rs !! i = Some r → add_rights k rs br !! Z.of_nat (k + i) = Some r.
Proof.
  revert k i br. induction rs as [|r' rs IH]; intros k i br Hi; [done|].
  destruct i as [|i]; simpl in *.
  - injection Hi as ->. rewrite add_rights_lookup_lt by lia.
    rewrite Nat.add_0_r. apply lookup_insert_eq.
  - replace (k + S i)%nat with (S k + i)%nat by lia. by apply IH.
Qed.

(** ** The table loop *)

Lemma print_block_step (clr : bashcolors)
    (br : gmap Z (gmap Z accval)) (clear : list (list string))
    (q z : nat) (n : Z) (bm : list (list string)) (bn : Z)
    (rights : gmap Z accval) (csec sec : list string) (cblk blk : string) :
  br !! Z.of_nat q = Some rights →
  clear !! q = Some csec → csec !! z = Some cblk →
  is_Ok (is_value_block cblk) →
  bm !! q = Some sec → sec !! z = Some blk →
  print_block clr br clear (Z.of_nat q) n (Z.of_nat z) bm bn
  = Ok (<[q := <[z := highlight clr cblk blk]> sec]> bm,
        row_of clr rights (Z.of_nat q) n z cblk blk bn).
Proof.
  intros Hr Hc Hcz [v Hv] Hq Hz.
  pose proof (lookup_lt_Some _ _ _ Hq) as Hql.
  pose proof (lookup_lt_Some _ _ _ Hz) as Hzl.
  unfold print_block, Py.dict_get, row_of, highlight, value_flag.
  rewrite Hr, (index_lookup _ _ _ Hc). cbn [mbind res_bind].
  rewrite (index_lookup _ _ _ Hcz). cbn [mbind res_bind].
  rewrite Hv. cbn [mbind res_bind]. destruct v.
  - rewrite (index_lookup _ _ _ Hq). cbn [mbind res_bind].
    rewrite set_item_nat by done. cbn [mbind res_bind].
    rewrite set_item_nat by done. cbn [mbind res_bind].
    rewrite (index_lookup _ q (<[z:=_]> sec))
      by (by apply list_lookup_insert_eq).
    cbn [mbind res_bind].
    rewrite (index_lookup _ z (WARNING clr +:+ cblk +:+ ENDC clr)%string)
      by (by apply list_lookup_insert_eq).
    done.
  - cbn [mbind res_bind mret res_ret].
    rewrite (index_lookup _ _ _ Hq). cbn [mbind res_bind].
    rewrite (index_lookup _ _ _ Hz). cbn [mbind res_bind mret res_ret].
    by rewrite (list_insert_id sec), (list_insert_id bm).
Qed.

Lemma print_blocks_spec (clr : bashcolors)
    (br : gmap Z (gmap Z accval)) (clear : list (list string))
    (q : nat) (n : Z) (rights : gmap Z accval) (csec : list string) :
  br !! Z.of_nat q = Some rights → clear !! q = Some csec →
  ∀ (ctodo stodo cdone sdone : list string) (bm : list (list string))
    (bn : Z) (out : list row),
  csec = cdone ++ ctodo → length cdone = length sdone →
  length ctodo = length stodo →
  Forall (λ c, is_Ok (is_value_block c)) ctodo →
  bm !! q = Some (sdone ++ stodo) →
  print_blocks clr br clear (Z.of_nat q) n
    (Z.of_nat <$> seq (length sdone) (length stodo)) bm bn out
  = Ok (<[q := sdone ++ zip_with (highlight clr) ctodo stodo]> bm,
        bn + Z.of_nat (length stodo),
        out ++ rows_of clr rights (Z.of_nat q) n (length sdone)
                 ctodo stodo bn).
Proof.
  intros Hr Hc.
  induction ctodo as [|c ctodo IH];
    intros [|s stodo] cdone sdone bm bn out Hcs Hdone Htodo Hok Hq;
    try discriminate Htodo.
  - cbn. rewrite !app_nil_r in *. rewrite list_insert_id by done.
    by rewrite Z.add_0_r.
  - pose proof (lookup_lt_Some _ _ _ Hq) as Hql.
    apply Forall_cons in Hok as [Hokc Hok].
    cbn [length seq fmap list_fmap print_blocks zip_with rows_of].
    rewrite (print_block_step clr br clear q (length sdone) n bm bn
               rights csec (sdone ++ s :: stodo) c s); try done.
    2:{ subst csec. rewrite <- Hdone. by apply list_lookup_middle. }
    2:{ by apply list_lookup_middle. }
    cbn [mbind res_bind].
    rewrite insert_app_r_alt, Nat.sub_diag by lia. cbn [insert list_insert].
    replace (sdone ++ highlight clr c s :: stodo)
      with ((sdone ++ [highlight clr c s]) ++ stodo)
      by (by rewrite <- app_assoc).
    replace (S (length sdone))
      with (length (sdone ++ [highlight clr c s]))
      by (rewrite length_app; simpl; lia).
    rewrite (IH stodo (cdone ++ [c]) (sdone ++ [highlight clr c s])).
    + rewrite list_insert_insert_eq, <- !app_assoc.
      by replace (bn + 1 + Z.of_nat (length stodo))
        with (bn + Z.of_nat (S (length stodo))) by lia.
    + subst csec. by rewrite <- app_assoc.
    + rewrite !length_app. simpl. lia.
    + by injection Htodo.
    + done.
    + by apply list_lookup_insert_eq.
Qed.

Lemma print_sectors_spec (clr : bashcolors)
    (br : gmap Z (gmap Z accval)) (clear : list (list string)) :
  (∀ q csec, clear !! q = Some csec →
             br !! Z.of_nat q = Some (rights_of csec)) →
  ∀ (ctodo btodo cdone bdone : list (list string)) (bn : Z)
    (out : list row),
  clear = cdone ++ ctodo → length cdone = length bdone →
  Forall2 (λ csec bsec, length csec = length bsec) ctodo btodo →
  Forall (Forall (λ c, is_Ok (is_value_block c))) ctodo →
  ∃ bm' bn',
    print_sectors clr br clear
      (Z.of_nat <$> seq (length bdone) (length btodo))
      (bdone ++ btodo) bn out
    = Ok (bm', bn', out ++ table_rows clr (length bdone) ctodo btodo bn).
Proof.
  intros Hbr ctodo btodo cdone bdone bn out Hc Hdone Hlen.
  revert cdone bdone bn out Hc Hdone.
  induction Hlen as [|csec bsec ctodo btodo Hl _ IH];
    intros cdone bdone bn out Hc Hdone Hok.
  - exists (bdone ++ []), bn. cbn. by rewrite (app_nil_r out).
  - apply Forall_cons in Hok as [Hokc Hok].
    assert (clear !! length bdone = Some csec) as Hq.
    { subst clear. rewrite <- Hdone. by apply list_lookup_middle. }
    cbn [length seq fmap list_fmap print_sectors table_rows].
    rewrite (index_lookup _ _ bsec) by (by apply list_lookup_middle).
    cbn [mbind res_bind]. rewrite range_len.
    rewrite (print_blocks_spec clr br clear (length bdone) (Py.len bsec)
               (rights_of csec) csec (Hbr _ _ Hq) Hq csec bsec [] []);
      try done; [|by apply list_lookup_middle].
    cbn [mbind res_bind app].
    rewrite insert_app_r_alt, Nat.sub_diag by lia. cbn [insert list_insert].
    set (bsec' := zip_with (highlight clr) csec bsec).
    replace (bdone ++ bsec' :: btodo) with ((bdone ++ [bsec']) ++ btodo)
      by (by rewrite <- app_assoc).
    replace (S (length bdone)) with (length (bdone ++ [bsec']))
      by (rewrite length_app; simpl; lia).
    destruct (IH (cdone ++ [csec]) (bdone ++ [bsec'])
                (bn + Z.of_nat (length bsec))
                (out ++ rows_of clr (rights_of csec)
                          (Z.of_nat (length bdone)) (Py.len bsec) 0
                          csec bsec bn))
      as (bm' & bn' & Hrun).
    + subst clear. by rewrite <- app_assoc.
    + rewrite !length_app. simpl. lia.
    + done.
    + exists bm', bn'. etrans; [exact Hrun|]. by rewrite <- app_assoc.
Qed.

(** ** The access field of a trailer *)

Lemma of_hex_hexlify (bs : list byte) :
  BitArray.of_hex (hexlify bs) = Ok (bytes_bits bs).
Proof.
  induction bs as [|b bs IH]; [done|].
  destruct (hex_byte b) as (_ & Hh & Hl & _).
  cbn [hexlify BitArray.of_hex]. rewrite Hh, Hl, IH.
  cbn [mbind res_bind mret res_ret]. unfold bytes_bits.
  cbn [mbind list_bind]. by rewrite <- app_assoc.
Qed.

Lemma bytes_bits_length (bs : list byte) :
  length (bytes_bits bs) = (8 * length bs)%nat.
Proof.
  unfold bytes_bits. induction bs as [|b bs IH]; [done|].
  cbn [mbind list_bind]. rewrite length_app, IH. simpl. lia.
Qed.

Lemma access_field_length (trailer : list byte) :
  length trailer = 16%nat → Py.len (access_field trailer) = 32.
Proof.
  intros Hlen. unfold access_field, Py.len.
  rewrite bytes_bits_length, slice_length; unfold Py.len; lia.
Qed.

Lemma accbit_info_small (acc : list bool) (n : Z) :
  Py.len acc = 32 → n ≠ 15 → accbit_info acc n = Ok (small_rights acc).
Proof.
  intros Hacc Hn. unfold accbit_info.
  destruct (Z.eqb_spec n 15) as [?|_]; [done|].
  change (Py.range 0 4 1) with [0; 1; 2; 3]. cbn [accbit_loop].
  rewrite (accbits_for_blocknum_small acc 0),
    (accbits_for_blocknum_small acc 1),
    (accbits_for_blocknum_small acc 2),
    (accbits_for_blocknum_trailer acc 3) by (done || lia || by left).
  done.
Qed.

Lemma accbit_info_large (acc : list bool) :
  Py.len acc = 32 → accbit_info acc 15 = Ok (large_rights acc).
Proof.
  intros Hacc. unfold accbit_info. cbn [Z.eqb Pos.eqb].
  by rewrite (accbits_for_blocknum_trailer acc 15) by (done || by right).
Qed.

(** The rights of a sector of full blocks with the trailer bytes [b]. *)
Lemma trailer_rights_full (sec : list string) (b : list byte) :
  last sec = Some (hexlify b) → length b = 16%nat →
  trailer_rights sec
  = Ok (if decide (length sec = 16%nat) then large_rights (access_field b)
        else small_rights (access_field b)).
Proof.
  intros Hl Hb. unfold trailer_rights. rewrite index_last, Hl.
  cbn [mbind res_bind].
  change 12 with (2 * 6). change 20 with (2 * 10).
  rewrite str_slice_hexlify, of_hex_hexlify by lia. cbn [mbind res_bind].
  fold (access_field b).
  destruct (decide (length sec = 16%nat)) as [H16|H16].
  - replace (Py.len sec - 1) with 15 by (unfold Py.len; lia).
    by apply accbit_info_large, access_field_length.
  - apply accbit_info_small; [by apply access_field_length|].
    unfold Py.len. lia.
Qed.

(** ** The whole report *)

Lemma index_head {A} (x : A) (l : list A) : Py.index (x :: l) 0 = Ok x.
Proof. exact (index_lookup (x :: l) 0 x eq_refl). Qed.

Lemma trailer_rights_nonempty (sec : list string) :
  is_Ok (trailer_rights sec) → sec ≠ [].
Proof. intros [r Hr] ->. by vm_compute in Hr. Qed.

Lemma print_report_spec (clr : bashcolors) (opts : Options)
    (data : list byte) (clear : list (list string)) (n : Z) :
  ok_matrix clear →
  print_report clr opts data clear n
  = Ok {| rep_header := header_of opts data (painted clr <$> clear) n;
          rep_rows := table_rows clr 0 clear (painted clr <$> clear) 0 |}.
Proof.
  intros [Hne Hok]. unfold print_report.
  assert (Forall2 (λ sec r, trailer_rights sec = Ok r) clear
            (rights_of <$> clear)) as Hrs.
  { apply Forall2_fmap_r, Forall_Forall2_diag.
    eapply Forall_impl; [exact Hok|]. intros sec [[r Hr] _].
    unfold compose, rights_of. by rewrite Hr. }
  rewrite !range_len.
  rewrite (paint_trailers_spec clr clear _ Hrs [] ∅).
  cbn [mbind res_bind app length].
  destruct clear as [|sec0 clear']; [done|].
  apply Forall_cons in Hok as Hok0. destruct Hok0 as [[Hr0 _] _].
  apply trailer_rights_nonempty in Hr0.
  assert (painted clr sec0 ≠ []) as Hp0.
  { intros Hp. apply (f_equal length) in Hp.
    rewrite painted_length in Hp. by destruct sec0. }
  rewrite (fmap_cons (painted clr)), index_head. cbn [mbind res_bind].
  destruct (painted clr sec0) as [|block0 rest] eqn:Hp; [done|].
  rewrite index_head. cbn [mbind res_bind].
  rewrite <- Hp, <- (fmap_cons (painted clr)), range_len, length_fmap.
  destruct (print_sectors_spec clr
              (add_rights 0 (rights_of <$> sec0 :: clear') ∅)
              (sec0 :: clear')) with
    (ctodo := sec0 :: clear') (btodo := painted clr <$> sec0 :: clear')
    (cdone := @nil (list string)) (bdone := @nil (list string))
    (bn := 0) (out := @nil row) as (bm' & bn' & Hrun); try done.
  - intros q csec Hq. apply (add_rights_lookup _ 0 q).
    by rewrite list_lookup_fmap, Hq.
  - apply Forall2_fmap_r, Forall_Forall2_diag, Forall_forall.
    intros sec _. exact (eq_sym (painted_length clr sec)).
  - eapply Forall_impl; [exact Hok|]. by intros sec [_ Hv].
  - cbn [app] in Hrun. rewrite length_fmap in Hrun.
    etrans; [exact (bind_Ok _ _ _ Hrun)|]. cbn [mbind res_bind mret res_ret].
    unfold header_of. rewrite fmap_cons, Hp. done.
Qed.

(** ** Dumps of accepted size *)

Lemma hex_block_value (blk : string) :
  hex_block blk → is_Ok (is_value_block blk).
Proof.
  intros (b & Hb & ->). eexists. by apply is_value_block_bytes.
Qed.

Lemma full_sector_rights (sec : list string) :
  sec ≠ [] → Forall hex_block sec → is_Ok (trailer_rights sec).
Proof.
  intros Hne Hf. destruct (last sec) as [t|] eqn:Hl.
  - assert (hex_block t) as (b & Hb & ->).
    { rewrite Forall_forall in Hf. apply Hf.
      rewrite last_lookup in Hl. by eapply list_elem_of_lookup_2. }
    eexists. by apply trailer_rights_full.
  - by apply last_None in Hl.
Qed.

Lemma full_matrix_ok (bm : list (list string)) :
  bm ≠ [] → Forall (λ n, n ≠ 0%nat) (shape bm) →
  Forall (Forall hex_block) bm → ok_matrix bm.
Proof.
  intros Hne Hsh Hf. split; [done|].
  unfold shape in Hsh. rewrite Forall_fmap in Hsh.
  rewrite Forall_forall in *. intros sec Hsec. split.
  - apply full_sector_rights; [|by apply Hf].
    intros ->. by apply (Hsh [] Hsec).
  - eapply Forall_impl; [by apply Hf|]. apply hex_block_value.
Qed.

Lemma read_accepted (fuel : nat) (data : list byte) (data_size : Z) :
  (40 ≤ fuel)%nat →
  data_size ∈ accepted_sizes → Py.len data ∈ accepted_sizes →
  data_size ≤ Py.len data →
  ∃ bm, read_sectors fuel data data_size [] 0 0 64
        = Some (bm, (bounds_of data_size).2) ∧
        shape bm = layout_shape data_size ∧
        Forall (Forall hex_block) bm.
Proof.
  intros Hfuel Hs Hd Hle.
  apply (layout_of_bounds 40); [|done|].
  - apply accepted_sizes_spec in Hs as [-> | [-> | ->]]; by vm_compute.
  - apply accepted_sizes_spec in Hs as [-> | [-> | ->]];
      apply accepted_sizes_spec in Hd as [Hd | [Hd | Hd]];
      rewrite Hd in *; first [lia | by vm_compute].
Qed.

Lemma shape_nonempty (bm : list (list string)) (data_size : Z) :
  data_size ∈ accepted_sizes → shape bm = layout_shape data_size →
  bm ≠ [] ∧ Forall (λ n, n ≠ 0%nat) (shape bm).
Proof.
  intros Hs Hsh. rewrite Hsh.
  apply accepted_sizes_spec in Hs as [-> | [-> | ->]]; split;
    try (intros ->; by vm_compute in Hsh);
    vm_compute; repeat constructor; discriminate.
Qed.

(** The report of a dump of accepted size, for which the override does
    not reach beyond the end of the data. *)
Lemma print_info_accepted (fuel : nat) (clr : bashcolors) (opts : Options)
    (data : list byte) :
  (40 ≤ fuel)%nat → Py.len data ∈ accepted_sizes →
  effective_size opts data ≤ Py.len data →
  ∃ bm, read_sectors fuel data (effective_size opts data) [] 0 0 64
        = Some (bm, (bounds_of (effective_size opts data)).2) ∧
        shape bm = layout_shape (effective_size opts data) ∧
        Forall (Forall hex_block) bm ∧
        print_info fuel clr opts data
        = Some (Ok {| rep_header :=
                        header_of opts data (painted clr <$> bm)
                          (bounds_of (effective_size opts data)).2;
                      rep_rows :=
                        table_rows clr 0 bm (painted clr <$> bm) 0 |}).
Proof.
  intros Hfuel Hd Hle.
  assert (effective_size opts data ∈ accepted_sizes) as Hs.
  { unfold effective_size. destruct (FORCE_1K opts); [|done].
    by apply accepted_sizes_spec; right; left. }
  destruct (read_accepted fuel data _ Hfuel Hs Hd Hle) as (bm & Hr & Hsh & Hf).
  exists bm. repeat split; try done.
  unfold print_info. rewrite decide_False by (by intros []).
  fold (effective_size opts data). rewrite Hr.
  f_equal. apply print_report_spec.
  destruct (shape_nonempty bm _ Hs Hsh). by apply full_matrix_ok.
Qed.

(** ** The lines of the table *)

Lemma rows_of_length (clr : bashcolors) (r : gmap Z accval) (q n : Z)
    (cs ss : list string) (z : nat) (bn : Z) :
  length cs = length ss → length (rows_of clr r q n z cs ss bn) = length cs.
Proof.
  revert ss z bn. induction cs as [|c cs IH]; intros [|s ss] z bn Hl;
    try done.
  simpl. f_equal. apply IH. by injection Hl.
Qed.

Lemma rows_of_lookup (clr : bashcolors) (r : gmap Z accval) (q n : Z)
    (cs ss : list string) (z : nat) (bn : Z) (i : nat) (c s : string) :
  cs !! i = Some c → ss !! i = Some s →
  rows_of clr r q n z cs ss bn !! i
  = Some (row_of clr r q n (z + i) c s (bn + Z.of_nat i)).
Proof.
  revert ss z bn i.
  induction cs as [|c' cs IH]; intros [|s' ss] z bn i Hc Hs; try done.
  destruct i as [|i]; simpl in *.
  - injection Hc as ->. injection Hs as ->.
    by rewrite Nat.add_0_r, Z.add_0_r.
  - rewrite (IH ss (S z) (bn + 1) i) by done.
    do 2 f_equal; lia.
Qed.

Lemma table_rows_length (clr : bashcolors) (cs bs : list (list string)) :
  Forall2 (λ c b, length c = length b) cs bs →
  ∀ (q : nat) (bn : Z),
  length (table_rows clr q cs bs bn) = sum_list (shape cs).
Proof.
  induction 1 as [|c b cs bs Hl _ IH]; intros q bn; [done|].
  cbn [table_rows shape fmap list_fmap sum_list sum_list_with id].
  rewrite length_app, rows_of_length by done. f_equal. apply IH.
Qed.

Lemma table_rows_lookup (clr : bashcolors) (cs bs : list (list string)) :
  Forall2 (λ c b, length c = length b) cs bs →
  ∀ (q0 : nat) (bn : Z) (q z : nat) (c b : list string) (cblk blk : string),
  cs !! q = Some c → bs !! q = Some b →
  c !! z = Some cblk → b !! z = Some blk →
  table_rows clr q0 cs bs bn !! (sum_list (take q (shape cs)) + z)%nat
  = Some (row_of clr (rights_of c) (Z.of_nat (q0 + q)) (Py.len b) z
            cblk blk (bn + Z.of_nat (sum_list (take q (shape cs)) + z))).
Proof.
  induction 1 as [|c' b' cs bs Hl Hall IH];
    intros q0 bn q z c b cblk blk Hc Hb Hcz Hbz; [done|].
  destruct q as [|q]; simpl in Hc, Hb.
  - injection Hc as ->. injection Hb as ->.
    cbn [table_rows shape fmap list_fmap take sum_list sum_list_with Nat.add].
    rewrite lookup_app_l
      by (rewrite rows_of_length by done; by eapply lookup_lt_Some).
    rewrite (rows_of_lookup _ _ _ _ _ _ _ _ _ _ _ Hcz Hbz).
    by rewrite Nat.add_0_r.
  - cbn [table_rows shape fmap list_fmap take sum_list sum_list_with id].
    fold (shape cs).
    rewrite lookup_app_r by (rewrite rows_of_length by done; lia).
    rewrite rows_of_length by done.
    replace (length c' + sum_list (take q (shape cs)) + z - length c')%nat
      with (sum_list (take q (shape cs)) + z)%nat by lia.
    rewrite (IH (S q0) (bn + Py.len b') q z c b cblk blk) by done.
    unfold Py.len at 2. do 2 f_equal; lia.
Qed.

Lemma painted_lookup (clr : bashcolors) (sec : list string) (z : nat)
    (blk : string) :
  sec !! z = Some blk → ∃ txt, painted clr sec !! z = Some txt.
Proof.
  intros Hz. apply lookup_lt_is_Some_2.
  rewrite painted_length. by eapply lookup_lt_Some.
Qed.

(** Every block of a dump of accepted size has its line in the report,
    at the position that the block counts of the sectors before it give. *)
Lemma report_rows (fuel : nat) (clr : bashcolors) (opts : Options)
    (data : list byte) :
  (40 ≤ fuel)%nat → Py.len data ∈ accepted_sizes →
  effective_size opts data ≤ Py.len data →
  ∃ bm rep,
    read_sectors fuel data (effective_size opts data) [] 0 0 64
    = Some (bm, (bounds_of (effective_size opts data)).2) ∧
    shape bm = layout_shape (effective_size opts data) ∧
    Forall (Forall hex_block) bm ∧
    print_info fuel clr opts data = Some (Ok rep) ∧
    length (rep_rows rep) = sum_list (shape bm) ∧
    ∀ (q z : nat) (sec : list string) (blk : string),
      bm !! q = Some sec → sec !! z = Some blk →
      ∃ txt,
        rep_rows rep !! (sum_list (take q (shape bm)) + z)%nat
        = Some (row_of clr (rights_of sec) (Z.of_nat q) (Py.len sec) z
                  blk txt (Z.of_nat (sum_list (take q (shape bm)) + z))).
Proof.
  intros Hfuel Hd Hle.
  destruct (print_info_accepted fuel clr opts data Hfuel Hd Hle)
    as (bm & Hr & Hsh & Hf & Hp).
  assert (Forall2 (λ c b : list string, length c = length b) bm
            (painted clr <$> bm)) as Hlen.
  { apply Forall2_fmap_r, Forall_Forall2_diag, Forall_forall.
    intros sec _. exact (eq_sym (painted_length clr sec)). }
  eexists bm, _. repeat split; try done; cbn [rep_rows].
  - by apply table_rows_length.
  - intros q z sec blk Hq Hz.
    destruct (painted_lookup clr sec z blk Hz) as [txt Htxt].
    exists txt.
    rewrite (table_rows_lookup clr _ _ Hlen 0 0 q z sec (painted clr sec)
               blk txt); try done.
    + unfold Py.len. by rewrite painted_length.
    + by rewrite list_lookup_fmap, Hq.
Qed.

Lemma accepted_no_overrun (opts : Options) (data : list byte) :
  length data = 320%nat ∨ length data = 1024%nat ∨ length data = 4096%nat →
  (FORCE_1K opts = true → length data ≠ 320%nat) →
  Py.len data ∈ accepted_sizes ∧ effective_size opts data ≤ Py.len data.
Proof.
  intros Hlen Hforce. split.
  - apply accepted_sizes_spec. unfold Py.len. lia.
  - unfold effective_size, Py.len.
    destruct (FORCE_1K opts); [specialize (Hforce eq_refl)|]; lia.
Qed.

(** ** The manufacturer block *)

(** C9. Whenever the table of a dump is printed, its first line, block 0
    of sector 0, has the placeholder "-" in the permission column,
    whatever the rights decoded for the sector are. *)
Theorem manufacturer_block_placeholder (fuel : nat) (clr : bashcolors)
    (opts : Options) (data : list byte) :
  (40 ≤ fuel)%nat →
  length data = 320%nat ∨ length data = 1024%nat ∨ length data = 4096%nat →
  (FORCE_1K opts = true → length data ≠ 320%nat) →
  (∀ (n_blocks : Z) (a : accval),
     block_permissions 0 0 n_blocks a = "-"%string) ∧
  ∃ rep r rows,
    print_info fuel clr opts data = Some (Ok rep) ∧
    rep_rows rep = r :: rows ∧
    row_block_number r = 0 ∧
    row_permissions r = "-"%string.
Proof.
  intros Hfuel Hlen Hforce. split; [done|].
  destruct (accepted_no_overrun opts data Hlen Hforce) as [Hd Hle].
  destruct (report_rows fuel clr opts data Hfuel Hd Hle)
    as (bm & rep & Hr & Hsh & Hf & Hp & Hn & Hrows).
  assert (effective_size opts data ∈ accepted_sizes) as Hs.
  { unfold effective_size. destruct (FORCE_1K opts); [|done].
    by apply accepted_sizes_spec; right; left. }
  destruct (shape_nonempty bm _ Hs Hsh) as [Hne Hpos].
  destruct bm as [|sec bm']; [done|].
  apply Forall_cons in Hpos as [Hsec _].
  destruct sec as [|blk sec']; [done|].
  destruct (Hrows 0%nat 0%nat (blk :: sec') blk eq_refl eq_refl)
    as [txt Hrow].
  cbn in Hrow. destruct (rep_rows rep) as [|r rows] eqn:Hrs; [done|].
  injection Hrow as ->. by eexists rep, _, rows.
Qed.

Lemma manufacturer_block_placeholder_witness :
  (40 ≤ 40)%nat ∧ length (zero_dump 320) = 320%nat ∧
  ∃ rep r rows,
    print_info 40 ansi_colors default_options (zero_dump 320)
    = Some (Ok rep) ∧
    rep_rows rep = r :: rows ∧ row_permissions r = "-"%string.
Proof.
  split; [apply le_n|]. split; [reflexivity|].
  destruct (manufacturer_block_placeholder 40 ansi_colors default_options
              (zero_dump 320) (le_n 40) (or_introl eq_refl))
    as (_ & rep & r & rows & Hp & Hrs & _ & Hperm).
  - intros Hforce. discriminate Hforce.
  - exists rep, r, rows. exact (conj Hp (conj Hrs Hperm)).
Defined.

(** ** Large sectors *)

Lemma dd_get_large (acc : list bool) (z : Z) :
  dd_get (large_rights acc) z
  = if decide (z = 15) then checked acc [8; 20; 16] [4; 0; 12] else PyFalse.
Proof.
  unfold dd_get, large_rights. destruct (decide (z = 15)) as [->|Hz].
  - by rewrite lookup_insert_eq.
  - by rewrite lookup_insert_ne, lookup_empty.
Qed.

Lemma dd_get_small (acc : list bool) (z : Z) :
  dd_get (small_rights acc) z
  = if decide (z = 3) then checked acc [8; 20; 16] [4; 0; 12]
    else if decide (z = 2) then checked acc [9; 21; 17] [5; 1; 13]
    else if decide (z = 1) then checked acc [10; 22; 18] [6; 2; 14]
    else if decide (z = 0) then checked acc [11; 23; 19] [7; 3; 15]
    else PyFalse.
Proof.
  unfold dd_get, small_rights.
  repeat (destruct (decide (z = _)) as [->|?];
          [by rewrite lookup_insert_eq | rewrite lookup_insert_ne by done]).
  by rewrite lookup_empty.
Qed.

(** The large-sector defect on a concrete dump: in a 4096-byte dump whose
    trailers all hold the valid access field ff078069, group 15 of sector
    32 decodes to the code 001, but the line of its first data block
    (block 128) shows ERR and an empty permission, not the description of
    001. *)
Lemma large_sector_data_block_unrated :
  ∃ rep r,
    length transport_dump_4k = 4096%nat ∧
    accbits_for_blocknum (access_field transport_trailer) 15
    = Ok (Bits [false; false; true]) ∧
    print_info 40 no_colors default_options transport_dump_4k
    = Some (Ok rep) ∧
    rep_rows rep !! 128%nat = Some r ∧
    row_accbits r = "ERR"%string ∧
    row_permissions r = ""%string ∧
    row_permissions r
    ≠ accbits_to_permission_data (Bits [false; false; true]).
Proof.
  eexists _, _. split; [reflexivity|]. split; [by vm_compute|].
  split; [by vm_compute|]. split; [reflexivity|]. by vm_compute.
Qed.

Lemma block_permissions_invalid (q z n_blocks : Z) :
  q ≠ 0 → block_permissions q z n_blocks PyFalse = ""%string.
Proof.
  intros Hq. unfold block_permissions.
  destruct (Z.eqb_spec q 0) as [?|_]; [done|].
  cbn [andb]. by destruct (z =? n_blocks - 1).
Qed.

Lemma full_sector_last (sec : list string) :
  sec ≠ [] → Forall hex_block sec →
  ∃ b, last sec = Some (hexlify b) ∧ length b = 16%nat.
Proof.
  intros Hne Hf. destruct (last sec) as [t|] eqn:Hl.
  - assert (hex_block t) as (b & Hb & ->); [|by exists b].
    rewrite Forall_forall in Hf. apply Hf.
    rewrite last_lookup in Hl. by eapply list_elem_of_lookup_2.
  - by apply last_None in Hl.
Qed.

(** C2.  The code does not do what the claim says.  In a 4096-byte dump
    read without the override, each of the sectors 32 to 39 has 16
    blocks; [accbit_info] decodes group 15 of the trailer's access field
    (positions 8, 20, 16 against 4, 0, 12) and stores it under the key 15
    alone, the trailer's own index, so that this code rates the trailer
    through the trailer table.  The data blocks 0 to 14 are looked up
    under their own indices and find no entry: each of their lines shows
    ERR and an empty permission, also when group 15 decoded to a valid
    code, whose description from the data table they then do not show. *)
Theorem large_sector_rights (fuel : nat) (clr : bashcolors) (opts : Options)
    (data : list byte) :
  (40 ≤ fuel)%nat → length data = 4096%nat → FORCE_1K opts = false →
  ∃ bm rep,
    read_sectors fuel data 4096 [] 0 0 64 = Some (bm, 40) ∧
    print_info fuel clr opts data = Some (Ok rep) ∧
    ∀ q : nat, (32 ≤ q < 40)%nat →
      ∃ sec b code,
        bm !! q = Some sec ∧ length sec = 16%nat ∧
        last sec = Some (hexlify b) ∧ length b = 16%nat ∧
        accbits_for_blocknum (access_field b) 15 = Ok code ∧
        accbit_info (access_field b) 15 = Ok (<[15 := code]> ∅) ∧
        ∀ z : nat, (z < 16)%nat →
          ∃ r, rep_rows rep !! (128 + 16 * (q - 32) + z)%nat = Some r ∧
               row_block_number r
               = Z.of_nat (128 + 16 * (q - 32) + z) ∧
               if decide (z = 15%nat) then
                 row_accbits r = format_accbits clr code ∧
                 row_permissions r = accbits_to_permission_sector code
               else
                 row_accbits r
                 = (WARNING clr +:+ "ERR" +:+ ENDC clr)%string ∧
                 row_permissions r = ""%string ∧
                 (valid_code code →
                  row_permissions r ≠ accbits_to_permission_data code).
Proof.
  intros Hfuel Hlen Hforce.
  assert (Py.len data = 4096) as Hd by (unfold Py.len; lia).
  assert (effective_size opts data = 4096) as He
    by (unfold effective_size; by rewrite Hforce).
  destruct (report_rows fuel clr opts data Hfuel)
    as (bm & rep & Hr & Hsh & Hf & Hp & Hn & Hrows).
  { rewrite Hd. apply accepted_sizes_spec. lia. }
  { rewrite He. lia. }
  rewrite He in Hr, Hsh.
  change (layout_shape 4096) with (replicate 32 4%nat ++ replicate 8 16%nat)
    in Hsh.
  exists bm, rep. split; [exact Hr|]. split; [exact Hp|].
  intros q Hq.
  assert (shape bm !! q = Some 16%nat
          ∧ sum_list (take q (shape bm)) = (128 + 16 * (q - 32))%nat)
    as [Hq16 Hsum].
  { rewrite Hsh. clear -Hq.
    do 32 (destruct q as [|q]; [lia|]).
    do 8 (destruct q as [|q]; [by vm_compute|]). lia. }
  unfold shape in Hq16. rewrite list_lookup_fmap in Hq16.
  destruct (bm !! q) as [sec|] eqn:Hsec; [|done].
  injection Hq16 as Hsl.
  assert (Forall hex_block sec) as Hfs.
  { rewrite Forall_forall in Hf. apply Hf.
    by eapply list_elem_of_lookup_2. }
  destruct (full_sector_last sec) as (b & Hl & Hb);
    [by destruct sec|done|].
  pose proof (access_field_length b Hb) as Hacc.
  exists sec, b, (checked (access_field b) [8; 20; 16] [4; 0; 12]).
  repeat split; try done.
  - apply accbits_for_blocknum_trailer; [done | by right].
  - by apply accbit_info_large.
  - intros z Hz.
    destruct (lookup_lt_is_Some_2 sec z) as [blk Hblk]; [lia|].
    destruct (Hrows q z sec blk Hsec Hblk) as [txt Hrow].
    rewrite Hsum in Hrow. eexists. split; [exact Hrow|].
    split; [reflexivity|]. cbn [row_accbits row_permissions row_of].
    unfold rights_of. rewrite (trailer_rights_full sec b Hl Hb).
    rewrite (decide_True _ _ Hsl), dd_get_large.
    destruct (decide (z = 15%nat)) as [->|Hz15].
    + rewrite decide_True by done. split; [done|].
      unfold block_permissions, Py.len. rewrite Hsl.
      destruct (Z.eqb_spec (Z.of_nat q) 0) as [?|_]; [lia|]. done.
    + rewrite decide_False by lia. split; [done|].
      rewrite block_permissions_invalid by lia. split; [done|].
      intros (b1 & b2 & b3 & ->).
      destruct b1, b2, b3; vm_compute; discriminate.
Qed.

Lemma large_sector_rights_witness :
  (40 ≤ 40)%nat ∧ length transport_dump_4k = 4096%nat ∧
  ∃ rep, print_info 40 no_colors default_options transport_dump_4k
         = Some (Ok rep).
Proof.
  split; [apply le_n|]. split; [reflexivity|].
  destruct (large_sector_rights 40 no_colors default_options
              transport_dump_4k (le_n 40) eq_refl eq_refl)
    as (bm & rep & _ & Hp & _).
  exists rep. exact Hp.
Defined.

(** ** Locality of a mismatch *)



Lemma groups_checked (a : list bool) :
  Py.len a = 32 →
  accbits_for_blocknum a 0 = Ok (checked a [11; 23; 19] [7; 3; 15]) ∧
  accbits_for_blocknum a 1 = Ok (checked a [10; 22; 18] [6; 2; 14]) ∧
  accbits_for_blocknum a 2 = Ok (checked a [9; 21; 17] [5; 1; 13]) ∧
  accbits_for_blocknum a 3 = Ok (checked a [8; 20; 16] [4; 0; 12]).
Proof.
  intros Ha. repeat split.
  - by apply (accbits_for_blocknum_small a 0).
  - by apply (accbits_for_blocknum_small a 1).
  - by apply (accbits_for_blocknum_small a 2).
  - apply accbits_for_blocknum_trailer; [done | by left].
Qed.





(** ** The override on a 320-byte dump *)

Lemma paint_trailer_raise (clr : bashcolors) (c : nat)
    (bm : list (list string)) (br : gmap Z (gmap Z accval))
    (sec : list string) (e : exn) :
  bm !! c = Some sec → trailer_rights sec = Raise e →
  paint_trailer clr (Z.of_nat c) bm br = Raise e.
Proof.
  intros Hc Hr. unfold paint_trailer, trailer_rights in *.
  rewrite (index_lookup _ _ _ Hc). cbn [mbind res_bind].
  destruct (Py.index sec _) as [trailer|]; cbn [mbind res_bind] in *;
    [|by injection Hr as ->].
  destruct (BitArray.of_hex _) as [acc|]; cbn [mbind res_bind] in *;
    [|by injection Hr as ->].
  by rewrite Hr.
Qed.

Lemma paint_trailers_raise (clr : bashcolors)
    (pre : list (list string)) (rs : list (gmap Z accval))
    (bad : list string) (post : list (list string)) (e : exn) :
  Forall2 (λ sec r, trailer_rights sec = Ok r) pre rs →
  trailer_rights bad = Raise e →
  ∀ (done_ : list (list string)) (br : gmap Z (gmap Z accval)),
  paint_trailers clr
    (Z.of_nat <$> seq (length done_) (length (pre ++ bad :: post)))
    (done_ ++ pre ++ bad :: post) br
  = Raise e.
Proof.
  intros Hpre Hbad.
  induction Hpre as [|sec r pre rs Hr _ IH]; intros done_ br.
  - cbn [app length seq fmap list_fmap paint_trailers].
    rewrite (paint_trailer_raise clr _ _ _ bad e);
      [done | by rewrite list_lookup_middle | done].
  - cbn [app length seq fmap list_fmap paint_trailers].
    rewrite (paint_trailer_step clr _ _ _ sec r);
      [|by rewrite list_lookup_middle|done].
    cbn [mbind res_bind].
    replace (<[length done_ := painted clr sec]>
               (done_ ++ sec :: pre ++ bad :: post))
      with ((done_ ++ [painted clr sec]) ++ pre ++ bad :: post).
    2:{ rewrite insert_app_r_alt, Nat.sub_diag by lia.
        by rewrite <- app_assoc. }
    replace (S (length done_)) with (length (done_ ++ [painted clr sec]))
      by (rewrite length_app; simpl; lia).
    apply IH.
Qed.

Lemma sector_blocks_beyond (data : list byte) (s e : Z) :
  Py.len data ≤ s → s ≤ e → sector_blocks data (s, e) = [].
Proof.
  intros Hs He. unfold sector_blocks. cbn [fst snd].
  rewrite slice_take_drop by (unfold Py.len in Hs; lia).
  rewrite drop_ge by (unfold Py.len in Hs; lia).
  by rewrite take_nil.
Qed.

(** C4, on the input where the program departs from it: the override on
    a 320-byte dump.  The sector loop runs to offset 1024, not to 320,
    and appends eleven sectors without blocks to the five of the dump; the
    trailer loop then raises [IndexError] on the first of these.  Without
    the override the same dump is read as five sectors and reported. *)
Theorem force_1k_on_mini_dump (fuel : nat) (clr : bashcolors)
    (uid_length : Z) (data : list byte) :
  (40 ≤ fuel)%nat → length data = 320%nat →
  (∃ bm,
     read_sectors fuel data 1024 [] 0 0 64 = Some (bm, 16) ∧
     shape bm = replicate 5 4%nat ++ replicate 11 0%nat ∧
     print_info fuel clr {| FORCE_1K := true; UID_LENGTH := uid_length |}
       data
     = Some (Raise IndexError)) ∧
  (∃ bm rep,
     read_sectors fuel data 320 [] 0 0 64 = Some (bm, 5) ∧
     shape bm = replicate 5 4%nat ∧
     print_info fuel clr {| FORCE_1K := false; UID_LENGTH := uid_length |}
       data
     = Some (Ok rep)).
Proof.
  intros Hfuel Hlen.
  assert (Py.len data = 320) as Hd by (unfold Py.len; lia).
  split.
  - set (inner := [(0, 64); (64, 128); (128, 192); (192, 256); (256, 320)]).
    set (outer := [(384, 448); (448, 512); (512, 576); (576, 640);
                   (640, 704); (704, 768); (768, 832); (832, 896);
                   (896, 960); (960, 1024)]).
    assert (read_sectors fuel data 1024 [] 0 0 64
            = Some (sector_blocks data <$> inner ++ (320, 384) :: outer, 16))
      as Hr by (by apply (read_sectors_accepted 40)).
    destruct (matrix_full data inner) as [Hsh Hf].
    { rewrite Hd. subst inner. repeat constructor; cbn; lia. }
    assert (sector_blocks data <$> (320, 384) :: outer
            = [] :: replicate 10 []) as Hout.
    { subst outer. cbn [fmap list_fmap replicate].
      repeat (rewrite (sector_blocks_beyond data) by lia). done. }
    eexists. split; [exact Hr|].
    rewrite fmap_app, Hout. split.
    + unfold shape. rewrite fmap_app, Hsh. done.
    + unfold print_info. rewrite decide_False.
      2:{ intros Hn. apply Hn, accepted_sizes_spec. lia. }
      cbn [FORCE_1K]. rewrite Hr, fmap_app, Hout. f_equal.
      unfold print_report. rewrite range_len.
      assert (Forall2 (λ sec r, trailer_rights sec = Ok r)
                (sector_blocks data <$> inner)
                (rights_of <$> (sector_blocks data <$> inner))) as Hrs.
      { apply Forall2_fmap_r, Forall_Forall2_diag, Forall_forall.
        intros sec Hsec. unfold compose, rights_of.
        destruct (full_sector_rights sec) as [r ->]; [| |done].
        - intros ->. apply list_elem_of_lookup in Hsec as [i Hi].
          apply (f_equal (fmap length)) in Hi.
          rewrite <- list_lookup_fmap, Hsh in Hi.
          subst inner. by do 5 (destruct i as [|i]; [done|]).
        - rewrite Forall_forall in Hf. by apply Hf. }
      rewrite (paint_trailers_raise clr _ _ [] (replicate 10 []) IndexError
                 Hrs eq_refl []).
      done.
  - destruct (report_rows fuel clr
                {| FORCE_1K := false; UID_LENGTH := uid_length |} data Hfuel)
      as (bm & rep & Hr & Hsh & _ & Hp & _).
    { rewrite Hd. apply accepted_sizes_spec. lia. }
    { done. }
    unfold effective_size in Hr, Hsh. cbn [FORCE_1K] in Hr, Hsh.
    rewrite Hd in Hr, Hsh. by exists bm, rep.
Qed.

Lemma force_1k_on_mini_dump_witness :
  (40 ≤ 40)%nat ∧ length (zero_dump 320) = 320%nat ∧
  print_info 40 no_colors {| FORCE_1K := true; UID_LENGTH := 4 |}
    (zero_dump 320)
  = Some (Raise IndexError).
Proof.
  split; [apply le_n|]. split; [reflexivity|].
  destruct (force_1k_on_mini_dump 40 no_colors 4 (zero_dump 320)
              (le_n 40) eq_refl) as [(bm & _ & _ & Hp) _].
  exact Hp.
Defined.

(** * Further properties *)

(** ** Access bits at the bounds *)

Lemma index_cases (a : list bool) (i : Z) :
  0 ≤ i →
  Py.index a i = if i <? Py.len a then Ok (bit a i) else Raise IndexError.
Proof.
  intros Hi. destruct (Z.ltb_spec i (Py.len a)) as [Hlt|Hge].
  - by apply index_bit.
  - by apply index_out_of_range.
Qed.

Lemma pick3_cases (a : list bool) (i j k : Z) :
  0 ≤ i → 0 ≤ j → 0 ≤ k →
  pick a [i; j; k]
  = if (i <? Py.len a) && (j <? Py.len a) && (k <? Py.len a)
    then Ok [bit a i; bit a j; bit a k] else Raise IndexError.
Proof.
  intros Hi Hj Hk. unfold pick. cbn [mapM].
  rewrite !index_cases by done.
  by destruct (i <? Py.len a), (j <? Py.len a), (k <? Py.len a).
Qed.

(** X1. A block number that is none of 0, 1, 2, 3 and 15 has no access
    bits: the answer is [False] for every field, also for one too short to
    hold any group, and no exception is raised. *)
Theorem unknown_group_is_invalid (a : list bool) (g : Z) :
  g ≠ 0 → g ≠ 1 → g ≠ 2 → g ≠ 3 → g ≠ 15 →
  accbits_for_blocknum a g = Ok PyFalse.
Proof.
  intros H0 H1 H2 H3 H15. unfold accbits_for_blocknum.
  destruct (Z.eqb_spec g 0) as [?|_]; [done|].
  destruct (Z.eqb_spec g 1) as [?|_]; [done|].
  destruct (Z.eqb_spec g 2) as [?|_]; [done|].
  destruct (Z.eqb_spec g 3) as [?|_]; [done|].
  by destruct (Z.eqb_spec g 15) as [?|_].
Qed.

Lemma unknown_group_is_invalid_witness :
  accbits_for_blocknum [] 4 = Ok PyFalse ∧
  accbits_for_blocknum transport_field 14 = Ok PyFalse.
Proof.
  split.
  - apply (unknown_group_is_invalid [] 4); discriminate.
  - apply (unknown_group_is_invalid transport_field 14); discriminate.
Defined.

(** X2. For the groups 0, 1, 2, 3 and 15 the extractor needs a field of
    24 - g bits (21 bits for 3 and 15): on such a field it returns a
    result, the code read at the group's positions or [False], and on any
    shorter field it raises [IndexError]. *)
Theorem accbits_for_blocknum_bounds (a : list bool) (g : Z) :
  g = 0 ∨ g = 1 ∨ g = 2 ∨ g = 3 ∨ g = 15 →
  (bits_needed g ≤ Py.len a →
     accbits_for_blocknum a g
     = Ok (checked a (if (g =? 3) || (g =? 15) then [8; 20; 16]
                      else [11 - g; 23 - g; 19 - g])
                     (check_positions g))) ∧
  (Py.len a < bits_needed g →
     accbits_for_blocknum a g = Raise IndexError).
Proof.
  intros Hg. unfold accbits_for_blocknum, bits_needed, check_positions.
  destruct Hg as [-> | [-> | [-> | [-> | ->]]]]; cbn [Z.eqb Pos.eqb orb];
    rewrite !pick3_cases by lia; split; intros Hlen;
    repeat match goal with
           | |- context [?i <? Py.len a] =>
               destruct (Z.ltb_spec i (Py.len a)); try lia
           end;
    cbn [andb mbind res_bind mret res_ret]; try done;
    exact (compare_checked a [_; _; _] [_; _; _]).
Qed.

Lemma accbits_for_blocknum_bounds_witness :
  accbits_for_blocknum (replicate 23 false) 0 = Raise IndexError ∧
  accbits_for_blocknum (replicate 23 false) 1 = Ok PyFalse.
Proof.
  split.
  - apply (accbits_for_blocknum_bounds (replicate 23 false) 0);
      [by left | reflexivity].
  - destruct (accbits_for_blocknum_bounds (replicate 23 false) 1) as [H _];
      [by right; left|].
    rewrite H; [reflexivity | discriminate].
Defined.

(** X3. On a field of 32 bits [accbit_info] never fails.  For a sector
    size other than 15 the dictionary holds exactly the keys 0 to 3, each
    with the result of [accbits_for_blocknum] for that group; for the size
    15 it holds the key 15 alone.  Every other key reads as [False]. *)
Theorem accbit_info_entries (a : list bool) (n : Z) :
  length a = 32%nat →
  ∃ d, accbit_info a n = Ok d ∧
       (∀ i v, d !! i = Some v ↔
               (if decide (n = 15) then i = 15 else 0 ≤ i ≤ 3) ∧
               accbits_for_blocknum a i = Ok v) ∧
       (∀ i, d !! i = None → dd_get d i = PyFalse).
Proof.
  intros Hlen. assert (Py.len a = 32) as Ha by (unfold Py.len; lia).
  destruct (groups_checked a Ha) as (A0 & A1 & A2 & A3).
  destruct (decide (n = 15)) as [->|Hn].
  - exists (large_rights a). split; [by apply accbit_info_large|].
    split; [|by intros i Hi; unfold dd_get; rewrite Hi].
    intros i v. unfold large_rights. split.
    + intros Hi. destruct (decide (i = 15)) as [->|Hne].
      * rewrite lookup_insert_eq in Hi. injection Hi as <-.
        split; [done|]. apply accbits_for_blocknum_trailer; [done|by right].
      * by rewrite lookup_insert_ne, lookup_empty in Hi.
    + intros [-> Hv].
      rewrite (accbits_for_blocknum_trailer a 15) in Hv by (done || by right).
      injection Hv as <-. by rewrite lookup_insert_eq.
  - exists (small_rights a). split; [by apply accbit_info_small|].
    split; [|by intros i Hi; unfold dd_get; rewrite Hi].
    intros i v. unfold small_rights. split.
    + intros Hi.
      destruct (decide (i = 3)) as [->|?];
        [rewrite lookup_insert_eq in Hi; by injection Hi as <-
        |rewrite lookup_insert_ne in Hi by done].
      destruct (decide (i = 2)) as [->|?];
        [rewrite lookup_insert_eq in Hi; by injection Hi as <-
        |rewrite lookup_insert_ne in Hi by done].
      destruct (decide (i = 1)) as [->|?];
        [rewrite lookup_insert_eq in Hi; by injection Hi as <-
        |rewrite lookup_insert_ne in Hi by done].
      destruct (decide (i = 0)) as [->|?];
        [rewrite lookup_insert_eq in Hi; by injection Hi as <-
        |rewrite lookup_insert_ne in Hi by done].
      by rewrite lookup_empty in Hi.
    + intros [Hi Hv].
      assert (i = 0 ∨ i = 1 ∨ i = 2 ∨ i = 3) as [-> | [-> | [-> | ->]]]
        by lia;
        rewrite ?A0, ?A1, ?A2, ?A3 in Hv; injection Hv as <-;
        repeat first [by rewrite lookup_insert_eq
                     | rewrite lookup_insert_ne by done].
Qed.

Lemma accbit_info_entries_witness :
  length transport_field = 32%nat ∧
  ∃ d, accbit_info transport_field 3 = Ok d ∧
       d !! 3 = Some (Bits [false; false; true]) ∧ d !! 4 = None.
Proof.
  split; [reflexivity|].
  destruct (accbit_info_entries transport_field 3 eq_refl)
    as (d & Hd & Hin & _).
  exists d. split; [exact Hd|]. split.
  - apply Hin. split; [done|reflexivity].
  - destruct (d !! 4) as [v|] eqn:H4; [|done].
    apply Hin in H4 as [H4 _]. by destruct H4.
Defined.

(** ** Value blocks of any length *)

Lemma index_Ok_lt {A} (l : list A) (i : Z) (x : A) :
  0 ≤ i → Py.index l i = Ok x → i < Py.len l.
Proof.
  intros Hi. unfold Py.index.
  destruct (Z.ltb_spec i 0) as [?|_]; [lia|].
  destruct (Z.leb_spec 0 i) as [_|?]; [|lia].
  destruct (Z.ltb_spec i (Py.len l)) as [?|_]; [done|]. discriminate.
Qed.

Lemma and_then_true (p q : res bool) :
  and_then p q = Ok true → p = Ok true ∧ q = Ok true.
Proof. destruct p as [[]|]; by cbn. Qed.

Lemma same_at_Ok (b : list Z) (i j : Z) (v : bool) :
  0 ≤ j → same_at b i j = Ok v → j < Py.len b.
Proof.
  intros Hj. unfold same_at.
  destruct (Py.index b i) as [x|]; [|done]. cbn [mbind res_bind].
  destruct (Py.index b j) as [y|] eqn:Hy; [|done].
  intros _. by eapply index_Ok_lt.
Qed.

Lemma is_value_block_long (b : list byte) :
  (16 ≤ length b)%nat → is_value_block (hexlify b) = Ok (value_pattern b).
Proof.
  intros Hlen. assert (16 ≤ Py.len b) as Hb by (unfold Py.len; lia).
  unfold is_value_block. rewrite fromhex_hexlify. cbn [mbind res_bind].
  rewrite !same_at_bytes, !inverse_at_bytes by lia.
  by rewrite !and_then_Ok.
Qed.

Lemma at_take (b : list byte) (n i : nat) :
  (i < n)%nat → at_ (take n b) i = at_ b i.
Proof. intros Hi. unfold at_. by rewrite lookup_take_lt. Qed.

(** X4. [is_value_block] looks at 16 bytes.  It never answers true on the
    text of fewer than 16 bytes (there it answers false or raises
    [IndexError]), and on a longer text its answer is the one for the
    first 16 bytes. *)
Theorem is_value_block_sixteen (b : list byte) :
  (is_value_block (hexlify b) = Ok true → (16 ≤ length b)%nat) ∧
  ((length b < 16)%nat →
     is_value_block (hexlify b) = Ok false ∨
     is_value_block (hexlify b) = Raise IndexError) ∧
  ((16 ≤ length b)%nat →
     is_value_block (hexlify b) = is_value_block (hexlify (take 16 b))).
Proof.
  assert (is_value_block (hexlify b) = Ok true → (16 ≤ length b)%nat)
    as Htrue.
  { unfold is_value_block. rewrite fromhex_hexlify. cbn [mbind res_bind].
    intros H. apply and_then_true in H as [_ H].
    apply and_then_true in H as [H _].
    apply and_then_true in H as [_ H].
    apply same_at_Ok in H; [|lia].
    unfold Py.len in H. rewrite length_fmap in H. lia. }
  split; [done|]. split.
  - intros Hshort. unfold is_value_block in *.
    rewrite fromhex_hexlify in *. cbn [mbind res_bind] in *.
    set (l := byte_val <$> b) in *.
    assert (∀ i j, same_at l i j = Ok true ∨ same_at l i j = Ok false
                   ∨ same_at l i j = Raise IndexError) as Hs.
    { intros i j. unfold same_at, Py.index.
      repeat (destruct (_ && _); cbn [mbind res_bind mret res_ret];
              [destruct (_ !! _); cbn [mbind res_bind mret res_ret]|];
              eauto).
      destruct (_ =? _); eauto. }
    assert (∀ i j, inverse_at l i j = Ok true ∨ inverse_at l i j = Ok false
                   ∨ inverse_at l i j = Raise IndexError) as Hi.
    { intros i j. unfold inverse_at, Py.index.
      repeat (destruct (_ && _); cbn [mbind res_bind mret res_ret];
              [destruct (_ !! _); cbn [mbind res_bind mret res_ret]|];
              eauto).
      destruct (_ =? _); eauto. }
    assert (∀ p q : res bool,
              (p = Ok true ∨ p = Ok false ∨ p = Raise IndexError) →
              (q = Ok true ∨ q = Ok false ∨ q = Raise IndexError) →
              and_then p q = Ok true ∨ and_then p q = Ok false
              ∨ and_then p q = Raise IndexError) as Hand.
    { intros p q [-> | [-> | ->]] [-> | [-> | ->]]; cbn; eauto. }
    match goal with
    | |- ?r = Ok false ∨ _ =>
        assert (r = Ok true ∨ r = Ok false ∨ r = Raise IndexError)
          as [Ht | [Hf | Hr]] by (repeat apply Hand; auto)
    end; [|by left|by right].
    specialize (Htrue Ht). lia.
  - intros Hlong. rewrite !is_value_block_long
      by (rewrite ?length_take; lia).
    unfold value_pattern. by rewrite !at_take by lia.
Qed.

Lemma is_value_block_sixteen_witness :
  (length (take 15 canonical_value_block) < 16)%nat ∧
  (is_value_block (hexlify (take 15 canonical_value_block)) = Ok false ∨
   is_value_block (hexlify (take 15 canonical_value_block))
   = Raise IndexError).
Proof.
  assert (length (take 15 canonical_value_block) < 16)%nat as H
    by (cbn; repeat constructor).
  split; [exact H|].
  exact (proj1 (proj2 (is_value_block_sixteen
                         (take 15 canonical_value_block))) H).
Defined.

Lemma byte_val_inverse (x : byte) :
  byte_val (inverse_byte x) = Z.lxor (byte_val x) 255.
Proof. destruct x; by vm_compute. Qed.

Lemma byte_val_inj (x y : byte) : byte_val x = byte_val y → x = y.
Proof.
  intros H.
  assert (∀ z, byte_of_val (byte_val z) = z) as Hid
    by (intros z; destruct z; by vm_compute).
  by rewrite <- (Hid x), H, Hid.
Qed.

(** X5. The 16-byte blocks that [is_value_block] accepts are exactly the
    blocks of the value format: four bytes, the four bytes inverted, the
    four bytes again, then an address byte, its inverse, the address byte
    and its inverse. *)
Theorem is_value_block_format (b : list byte) :
  length b = 16%nat →
  is_value_block (hexlify b) = Ok true ↔
  ∃ (v : list byte) (a : byte),
    length v = 4%nat ∧ b = make_value_block v a.
Proof.
  intros Hlen. rewrite is_value_block_long by lia. split.
  - intros [= H].
    do 16 (destruct b as [|? b]; [discriminate Hlen|]).
    destruct b; [|discriminate Hlen].
    unfold value_pattern, at_ in H. cbn [lookup list_lookup default] in H.
    rewrite !andb_true_iff, !Z.eqb_eq in H.
    rewrite <- !byte_val_inverse in H.
    destruct H as [[[[[H08 H04] [H19 H15]] [H2a H26]] [H3b H37]]
                     [[Hce Hdf] Hcd]].
    apply byte_val_inj in H08, H04, H19, H15, H2a, H26, H3b, H37,
      Hce, Hdf, Hcd.
    unfold id in *. subst. by eexists [_; _; _; _], _.
  - intros (v & a & Hv & ->).
    do 4 (destruct v as [|? v]; [discriminate Hv|]).
    destruct v; [|discriminate Hv].
    unfold value_pattern, at_, make_value_block.
    cbn [fmap list_fmap app lookup list_lookup default from_option].
    unfold id. rewrite !byte_val_inverse. by rewrite !Z.eqb_refl.
Qed.

Lemma is_value_block_format_witness :
  length canonical_value_block = 16%nat ∧
  ∃ (v : list byte) (a : byte),
    length v = 4%nat ∧ canonical_value_block = make_value_block v a.
Proof.
  split; [reflexivity|].
  apply (is_value_block_format canonical_value_block eq_refl).
  reflexivity.
Defined.

(** ** The command line *)

Lemma take_flag_hit (flag : string) (args : list string) :
  take_flag flag (flag :: args) = Ok (args, true).
Proof.
  unfold take_flag. rewrite index_head. cbn [mbind res_bind].
  by rewrite decide_True.
Qed.

Lemma take_flag_miss (flag a : string) (args : list string) :
  a ≠ flag → take_flag flag (a :: args) = Ok (a :: args, false).
Proof.
  intros Hne. unfold take_flag. rewrite index_head. cbn [mbind res_bind].
  by rewrite decide_False.
Qed.

(** What [main] does with the argument [f] that follows the flags, when
    none of the tests still to come takes [f] for its flag. *)
Lemma main_after_flags (fuel : nat) (open_rb : string → res (list byte))
    (clr : bashcolors) (opts : Options) (n one seven : bool)
    (f : string) (rest : list string) :
  (f = "-n"%string → n || one || seven = true) →
  (f = "-1"%string → one || seven = true) →
  (f = "-7"%string → seven = true) →
  main fuel open_rb clr opts (flag_args n one seven ++ f :: rest)
  = match open_rb f with
    | Ok data =>
        print_info fuel (flagged_colors n clr)
          (flagged_options one seven opts) data
    | Raise e => Some (Raise e)
    end.
Proof.
  intros Hn H1 H7. unfold main, flag_args, flagged_colors, flagged_options.
  destruct opts as [force uid].
  destruct n, one, seven; cbn [app orb] in *;
    repeat (first
      [ rewrite take_flag_hit
      | rewrite take_flag_miss by
          (first [discriminate
                 | intros ->;
                   first [discriminate (Hn eq_refl)
                         | discriminate (H1 eq_refl)
                         | discriminate (H7 eq_refl)]]) ];
      cbn [mbind res_bind mret res_ret FORCE_1K UID_LENGTH]);
    rewrite index_head; cbn [mbind res_bind];
    by destruct (open_rb f).
Qed.

(** X6. Called with the flags in the order -n, -1, -7, each present or
    not, then a file name that is none of the three and anything after
    it, [main] reports the bytes of that file with the colours off for
    -n, the override on for -1 and a 7-byte UID for -7; what follows the
    file name is ignored, and a failure to read the file is the
    outcome. *)
Theorem main_flags_in_order (fuel : nat) (open_rb : string → res (list byte))
    (clr : bashcolors) (opts : Options) (n one seven : bool)
    (f : string) (rest : list string) :
  f ≠ "-n"%string → f ≠ "-1"%string → f ≠ "-7"%string →
  main fuel open_rb clr opts (flag_args n one seven ++ f :: rest)
  = match open_rb f with
    | Ok data =>
        print_info fuel (if n then no_colors else clr)
          {| FORCE_1K := one || FORCE_1K opts;
             UID_LENGTH := if seven then 7 else UID_LENGTH opts |} data
    | Raise e => Some (Raise e)
    end.
Proof. intros Hn H1 H7. by apply main_after_flags. Qed.

Lemma main_flags_in_order_witness :
  main 40 (λ _, Ok (zero_dump 320)) ansi_colors default_options
    ["-n"; "-7"; "dump.mfd"; "ignored"]%string
  = print_info 40 no_colors {| FORCE_1K := false; UID_LENGTH := 7 |}
      (zero_dump 320).
Proof.
  exact (main_flags_in_order 40 (λ _, Ok (zero_dump 320)) ansi_colors
           default_options true false true "dump.mfd" ["ignored"%string]
           ltac:(discriminate) ltac:(discriminate) ltac:(discriminate)).
Defined.

(** X7. Each flag is tested once, in the order -n, -1, -7.  An argument
    that spells a flag whose test is over (a -n after any flag, a -1 after
    -1 or -7, a -7 after -7) is not a flag any more: it is the name of the
    file that [main] opens. *)
Theorem main_late_flag_is_file_name (fuel : nat)
    (open_rb : string → res (list byte)) (clr : bashcolors) (opts : Options)
    (n one seven : bool) (g : string) (rest : list string) :
  (g = "-n"%string ∧ n || one || seven = true) ∨
  (g = "-1"%string ∧ one || seven = true) ∨
  (g = "-7"%string ∧ seven = true) →
  main fuel open_rb clr opts (flag_args n one seven ++ g :: rest)
  = match open_rb g with
    | Ok data =>
        print_info fuel (if n then no_colors else clr)
          {| FORCE_1K := one || FORCE_1K opts;
             UID_LENGTH := if seven then 7 else UID_LENGTH opts |} data
    | Raise e => Some (Raise e)
    end.
Proof.
  intros Hg. apply main_after_flags;
    destruct Hg as [[-> H] | [[-> H] | [-> H]]]; intros; try done.
Qed.

Lemma main_late_flag_is_file_name_witness :
  main 40 (λ name, if decide (name = "-n"%string) then Ok (zero_dump 320)
                   else Raise KeyError)
    ansi_colors default_options ["-1"; "-n"; "dump.mfd"]%string
  = print_info 40 ansi_colors {| FORCE_1K := true; UID_LENGTH := 4 |}
      (zero_dump 320).
Proof.
  exact (main_late_flag_is_file_name 40
           (λ name, if decide (name = "-n"%string) then Ok (zero_dump 320)
                    else Raise KeyError)
           ansi_colors default_options false true false "-n"
           ["dump.mfd"%string] (or_introl (conj eq_refl eq_refl))).
Defined.

Lemma slice_tail {A} (x : A) (l : list A) :
  Py.slice (x :: l) 1 (Py.len (x :: l)) = l.
Proof.
  rewrite slice_take_drop by (unfold Py.len; lia).
  cbn [Z.to_nat Pos.to_nat Pos.iter_op Nat.add drop].
  apply take_ge. unfold Py.len. cbn [length]. lia.
Qed.

(** X8. Without a file name the script does not print its usage text
    unless there is no argument at all: started with flags only, in the
    order -n, -1, -7, it ends in [IndexError], and no file is opened. *)
Theorem run_script_without_file_name (fuel : nat)
    (open_rb : string → res (list byte)) (prog : string)
    (n one seven : bool) :
  run_script fuel open_rb (prog :: flag_args n one seven)
  = if n || one || seven then Some (Raise IndexError)
    else Some (Raise (SystemExit usage)).
Proof.
  unfold run_script.
  destruct n, one, seven; cbn [orb flag_args app];
    try reflexivity;
    (replace (Py.len _ =? 1) with false by reflexivity);
    rewrite slice_tail; unfold main;
    repeat (first [rewrite take_flag_hit
                  | rewrite take_flag_miss by discriminate];
            cbn [mbind res_bind mret res_ret]);
    reflexivity.
Qed.

(** ** When the sector loop stops *)

Lemma boundary_step (n : Z) :
  0 ≤ n →
  (if n + 1 <? 32 then (boundary n + 64, boundary (n + 1) + 64)
   else if n + 1 =? 32 then (boundary n + 64, boundary (n + 1) + 256)
   else (boundary n + 256, boundary (n + 1) + 256))
  = (boundary (n + 1), boundary (n + 1 + 1)).
Proof.
  intros Hn. unfold boundary.
  destruct (Z.ltb_spec (n + 1) 32), (Z.eqb_spec (n + 1) 32),
    (Z.leb_spec n 32), (Z.leb_spec (n + 1) 32),
    (Z.leb_spec (n + 1 + 1) 32); f_equal; lia.
Qed.

Lemma boundary_mono (a b : Z) : 0 ≤ a < b → boundary a < boundary b.
Proof.
  intros Hab. unfold boundary.
  destruct (Z.leb_spec a 32), (Z.leb_spec b 32); lia.
Qed.

Lemma read_sectors_runs_on (fuel : nat) (data : list byte) (ds : Z) :
  ∀ (bm : list (list string)) (n : Z),
  0 ≤ n → (∀ m, n < m → boundary m ≠ ds) →
  read_sectors fuel data ds bm n (boundary n) (boundary (n + 1)) = None.
Proof.
  induction fuel as [|fuel IH]; intros bm n Hn Hds; [done|].
  cbn [read_sectors]. rewrite boundary_step by done.
  destruct (Z.eqb_spec (boundary (n + 1)) ds) as [Heq|_].
  - by destruct (Hds (n + 1) ltac:(lia)).
  - apply IH; [lia|]. intros m Hm. apply Hds. lia.
Qed.

Lemma read_sectors_stops (k : nat) (data : list byte) :
  ∀ (fuel : nat) (bm : list (list string)) (n : Z),
  0 ≤ n → (S k ≤ fuel)%nat →
  ∃ bm', read_sectors fuel data (boundary (n + Z.of_nat (S k))) bm n
           (boundary n) (boundary (n + 1))
         = Some (bm', n + Z.of_nat (S k)) ∧
         length bm' = (length bm + S k)%nat.
Proof.
  induction k as [|k IH]; intros fuel bm n Hn Hfuel;
    (destruct fuel as [|fuel]; [lia|]);
    cbn [read_sectors]; rewrite boundary_step by done.
  - rewrite Z.eqb_refl. eexists. split; [done|].
    rewrite length_app. cbn [length]. lia.
  - destruct (Z.eqb_spec (boundary (n + 1))
                (boundary (n + Z.of_nat (S (S k))))) as [Heq|_].
    { pose proof (boundary_mono (n + 1) (n + Z.of_nat (S (S k)))). lia. }
    destruct (IH fuel
                (bm ++ [split_blocks
                          (hexlify (Py.slice data (boundary n)
                                      (boundary (n + 1))))])
                (n + 1)) as (bm' & Hr & Hl); [lia..|].
    replace (n + 1 + Z.of_nat (S k)) with (n + Z.of_nat (S (S k))) in Hr
      by lia.
    exists bm'. split; [exact Hr|].
    rewrite Hl, length_app. cbn [length]. lia.
Qed.

(** X9. The sector loop stops exactly at the sector boundaries: 64 bytes
    times the sector count up to 32 sectors, 256 bytes more for each
    sector after that.  For a size that is the boundary of [m] sectors it
    ends after [m] steps with [m] sectors; for any other size it never
    ends, whatever the fuel.  The three accepted sizes are the boundaries
    of 5, 16 and 40 sectors. *)
Theorem read_sectors_stops_at_boundaries (data : list byte) :
  (∀ (m fuel : nat), (1 ≤ m ≤ fuel)%nat →
     ∃ bm, read_sectors fuel data (boundary (Z.of_nat m)) [] 0 0 64
           = Some (bm, Z.of_nat m) ∧
           length bm = m) ∧
  (∀ (ds : Z) (fuel : nat),
     (∀ m, 1 ≤ m → boundary m ≠ ds) →
     read_sectors fuel data ds [] 0 0 64 = None) ∧
  boundary 5 = 320 ∧ boundary 16 = 1024 ∧ boundary 40 = 4096.
Proof.
  split; [|split; [|done]].
  - intros m fuel Hm. destruct m as [|k]; [lia|].
    destruct (read_sectors_stops k data fuel [] 0) as (bm & Hr & Hl);
      [lia..|].
    exists bm. split; [exact Hr | exact Hl].
  - intros ds fuel Hds.
    apply (read_sectors_runs_on fuel data ds [] 0); [lia|].
    intros m Hm. apply Hds. lia.
Qed.

Lemma read_sectors_stops_at_boundaries_witness :
  (1 ≤ 3 ≤ 3)%nat ∧
  (∃ bm, read_sectors 3 (zero_dump 320) 192 [] 0 0 64 = Some (bm, 3)) ∧
  read_sectors 100 (zero_dump 320) 100 [] 0 0 64 = None.
Proof.
  assert (1 ≤ 3 ≤ 3)%nat as H3 by (split; repeat constructor).
  split; [exact H3|]. split.
  - destruct (proj1 (read_sectors_stops_at_boundaries (zero_dump 320))
                3%nat 3%nat H3) as (bm & Hr & _).
    exists bm. exact Hr.
  - apply (proj1 (proj2 (read_sectors_stops_at_boundaries (zero_dump 320)))).
    intros m Hm. unfold boundary.
    destruct (Z.leb_spec m 32); lia.
Defined.

(** ** The blocks of the matrix and the bytes of the dump *)

Lemma slice_slice {A} (l : list A) (s e a b : Z) :
  0 ≤ s → 0 ≤ a ≤ b → s + b ≤ e → e ≤ Py.len l →
  Py.slice (Py.slice l s e) a b = Py.slice l (s + a) (s + b).
Proof.
  intros Hs Hab Hb He. unfold Py.len in He.
  rewrite !slice_take_drop by lia.
  apply list_eq. intros i.
  destruct (decide (i < Z.to_nat b - Z.to_nat a)%nat) as [Hi|Hi].
  - rewrite !lookup_take_lt, !lookup_drop by lia.
    rewrite lookup_take_lt, lookup_drop by lia. f_equal. lia.
  - by rewrite !lookup_take_ge by lia.
Qed.

Lemma byte_blocks_lookup (l : list byte) (n z : nat) :
  length l = (16 * n)%nat → (z < n)%nat →
  byte_blocks l !! z
  = Some (Py.slice l (16 * Z.of_nat z) (16 * Z.of_nat z + 16)).
Proof.
  intros Hl Hz. unfold byte_blocks, Py.range.
  assert (Py.len l = 16 * Z.of_nat n) as -> by (unfold Py.len; lia).
  replace ((16 * Z.of_nat n - 0 + 16 - 1) / 16) with (Z.of_nat n)
    by (Z.to_euclidean_division_equations; lia).
  rewrite Nat2Z.id, <- list_fmap_compose, list_lookup_fmap.
  rewrite lookup_seq_lt by done. cbn [fmap option_fmap option_map compose].
  by rewrite Z.add_0_l.
Qed.

Lemma sector_block_text (data : list byte) (s e : Z) (n z : nat) :
  0 ≤ s → e ≤ Py.len data → e - s = 16 * Z.of_nat n → (z < n)%nat →
  sector_blocks data (s, e) !! z
  = Some (hexlify (Py.slice data (s + 16 * Z.of_nat z)
                     (s + (16 * Z.of_nat z + 16)))).
Proof.
  intros Hs He Hn Hz. unfold sector_blocks. cbn [fst snd].
  rewrite split_blocks_hexlify, list_lookup_fmap.
  rewrite (byte_blocks_lookup _ n z); [|rewrite slice_length; lia|done].
  cbn [fmap option_fmap option_map]. by rewrite slice_slice by lia.
Qed.

Lemma boundary_block_index (q : nat) :
  boundary (Z.of_nat q) = 16 * Z.of_nat (block_index q 0).
Proof.
  unfold boundary, block_index.
  destruct (Z.leb_spec (Z.of_nat q) 32), (Nat.leb_spec q 32); lia.
Qed.

Lemma boundary_blocks_in (q : nat) :
  boundary (Z.of_nat q + 1) - boundary (Z.of_nat q)
  = 16 * Z.of_nat (blocks_in q).
Proof.
  unfold boundary, blocks_in.
  destruct (Z.leb_spec (Z.of_nat q) 32), (Z.leb_spec (Z.of_nat q + 1) 32),
    (Nat.ltb_spec q 32); lia.
Qed.

(** The bounds of the loop for an accepted size, sector by sector. *)
Lemma bounds_of_accepted (ds : Z) :
  ds ∈ accepted_sizes →
  sector_bounds 40 ds 0 0 64 = Some (bounds_of ds) ∧
  ∀ (q : nat) (se : Z * Z),
    (bounds_of ds).1 !! q = Some se →
    se = (boundary (Z.of_nat q), boundary (Z.of_nat q + 1)) ∧
    boundary (Z.of_nat q + 1) ≤ ds ∧
    layout_shape ds !! q = Some (blocks_in q) ∧
    sum_list (take q (layout_shape ds)) = block_index q 0.
Proof.
  intros Hds.
  apply accepted_sizes_spec in Hds as [-> | [-> | ->]];
    (split; [by vm_compute|]); intros q se Hq.
  - let v := eval vm_compute in (bounds_of 320).1 in
    change ((bounds_of 320).1) with v in Hq.
    do 5 (destruct q as [|q];
          [injection Hq as <-; vm_compute; repeat split; congruence|]).
    done.
  - let v := eval vm_compute in (bounds_of 1024).1 in
    change ((bounds_of 1024).1) with v in Hq.
    do 16 (destruct q as [|q];
           [injection Hq as <-; vm_compute; repeat split; congruence|]).
    done.
  - let v := eval vm_compute in (bounds_of 4096).1 in
    change ((bounds_of 4096).1) with v in Hq.
    do 40 (destruct q as [|q];
           [injection Hq as <-; vm_compute; repeat split; congruence|]).
    done.
Qed.

Lemma index_split (sh : list nat) (k : nat) :
  (k < sum_list sh)%nat →
  ∃ q z n, sh !! q = Some n ∧ (z < n)%nat ∧
           k = (sum_list (take q sh) + z)%nat.
Proof.
  revert k. induction sh as [|n sh IH]; intros k Hk; [cbn in Hk; lia|].
  cbn [sum_list sum_list_with id] in Hk.
  destruct (decide (k < n)%nat) as [Hlt|Hge].
  - exists 0%nat, k, n. by repeat split.
  - destruct (IH (k - n)%nat) as (q & z & m & Hq & Hz & Hkz); [lia|].
    exists (S q), z, m. repeat split; [done..|].
    cbn [take sum_list sum_list_with id]. lia.
Qed.

Lemma effective_accepted (opts : Options) (data : list byte) :
  Py.len data ∈ accepted_sizes → effective_size opts data ∈ accepted_sizes.
Proof.
  intros Hd. unfold effective_size. destruct (FORCE_1K opts); [|done].
  apply accepted_sizes_spec. by right; left.
Qed.

Lemma block_index_add (q z : nat) :
  block_index q z = (block_index q 0 + z)%nat.
Proof. unfold block_index. destruct (q <=? 32)%nat; lia. Qed.

(** The sector [q] of the matrix read from a dump. *)
Lemma sector_of_dump (data : list byte) (q : nat) :
  boundary (Z.of_nat q + 1) ≤ Py.len data →
  let sec := sector_blocks data
               (boundary (Z.of_nat q), boundary (Z.of_nat q + 1)) in
  length sec = blocks_in q ∧
  (∀ z, (z < blocks_in q)%nat →
        sec !! z = Some (hexlify (block_bytes data (block_index q z)))) ∧
  last sec = Some (hexlify (trailer_bytes data q)) ∧
  length (trailer_bytes data q) = 16%nat ∧
  rights_of sec = sector_rights (blocks_in q) (trailer_bytes data q).
Proof.
  intros Hq sec.
  assert (0 ≤ boundary (Z.of_nat q)) as H0.
  { rewrite boundary_block_index. lia. }
  pose proof (boundary_blocks_in q) as Hn.
  destruct (sector_blocks_full data _ _ (blocks_in q) H0 Hq Hn) as [Hl _].
  assert (∀ z, (z < blocks_in q)%nat →
            sec !! z = Some (hexlify (block_bytes data (block_index q z))))
    as Hz.
  { intros z Hz. unfold sec.
    rewrite (sector_block_text data _ _ (blocks_in q) z) by done.
    unfold block_bytes. rewrite boundary_block_index.
    rewrite (block_index_add q z). do 3 f_equal; lia. }
  assert (0 < blocks_in q)%nat as Hpos
    by (unfold blocks_in; destruct (q <? 32)%nat; lia).
  assert (length (trailer_bytes data q) = 16%nat) as Hb.
  { unfold trailer_bytes, block_bytes. rewrite slice_length; [lia|lia|].
    rewrite (block_index_add q). pose proof (boundary_block_index q). lia. }
  assert (last sec = Some (hexlify (trailer_bytes data q))) as Hlast.
  { rewrite last_lookup. fold sec in Hl. rewrite Hl.
    replace (pred (blocks_in q)) with (blocks_in q - 1)%nat by lia.
    apply Hz. lia. }
  repeat split; try done.
  unfold rights_of, sector_rights.
  rewrite (trailer_rights_full sec _ Hlast Hb). fold sec in Hl.
  by rewrite Hl.
Qed.

Lemma painted_text_lookup (clr : bashcolors) (data : list byte) (q z : nat)
    (sec : list string) :
  length sec = blocks_in q →
  last sec = Some (hexlify (trailer_bytes data q)) →
  sec !! z = Some (hexlify (block_bytes data (block_index q z))) →
  painted clr sec !! z = Some (painted_text clr data q z).
Proof.
  intros Hl Hlast Hz. unfold painted, painted_text. rewrite Hlast, Hl.
  pose proof (lookup_lt_Some _ _ _ Hz) as Hlt. rewrite Hl in Hlt.
  replace (pred (blocks_in q)) with (blocks_in q - 1)%nat by lia.
  destruct (decide (z = (blocks_in q - 1)%nat)) as [->|Hne].
  - by rewrite list_lookup_insert_eq by lia.
  - by rewrite list_lookup_insert_ne by done.
Qed.

(** The report of a dump of accepted size, line by line. *)
Lemma accepted_report (fuel : nat) (clr : bashcolors) (opts : Options)
    (data : list byte) :
  (40 ≤ fuel)%nat → Py.len data ∈ accepted_sizes →
  effective_size opts data ≤ Py.len data →
  ∃ bm rep,
    print_info fuel clr opts data = Some (Ok rep) ∧
    rep_header rep
    = header_of opts data (painted clr <$> bm)
        (bounds_of (effective_size opts data)).2 ∧
    length (rep_rows rep) = sum_list (layout_shape (effective_size opts data)) ∧
    (∀ q z : nat,
       layout_shape (effective_size opts data) !! q = Some (blocks_in q) →
       (z < blocks_in q)%nat →
       boundary (Z.of_nat q + 1) ≤ effective_size opts data ∧
       (∃ sec, bm !! q = Some sec ∧
               painted clr sec !! z = Some (painted_text clr data q z)) ∧
       rep_rows rep !! block_index q z = Some (block_row clr data q z)) ∧
    (∀ q n, layout_shape (effective_size opts data) !! q = Some n →
            n = blocks_in q ∧
            sum_list (take q (layout_shape (effective_size opts data)))
            = block_index q 0).
Proof.
  intros Hfuel Hd Hle.
  pose proof (effective_accepted opts data Hd) as Hs.
  destruct (bounds_of_accepted _ Hs) as [Hb Hbounds].
  destruct (print_info_accepted fuel clr opts data Hfuel Hd Hle)
    as (bm & Hr & Hsh & _ & Hp).
  destruct (bounds_of (effective_size opts data)) as [bounds n] eqn:Hbo.
  cbn [fst snd] in *.
  rewrite (read_sectors_accepted 40 fuel data _ bounds n Hb Hfuel) in Hr.
  injection Hr as <-.
  assert (∀ q m, layout_shape (effective_size opts data) !! q = Some m →
            ∃ se, bounds !! q = Some se) as Hex.
  { intros q m Hq. unfold layout_shape in Hq.
    rewrite Hbo, list_lookup_fmap in Hq. cbn [fst] in Hq.
    destruct (bounds !! q) as [se|]; [by exists se|done]. }
  eexists _, _. split; [exact Hp|]. cbn [rep_header rep_rows].
  split; [done|].
  assert (Forall2 (λ c b : list string, length c = length b)
            (sector_blocks data <$> bounds)
            (painted clr <$> (sector_blocks data <$> bounds))) as Hlen.
  { apply Forall2_fmap_r, Forall_Forall2_diag, Forall_forall.
    intros sec _. exact (eq_sym (painted_length clr sec)). }
  split; [by rewrite table_rows_length, Hsh|]. split.
  - intros q z Hq Hz. destruct (Hex q _ Hq) as [se Hse].
    destruct (Hbounds q se Hse) as (-> & Hin & _ & Hsum).
    destruct (sector_of_dump data q) as (Hl & Hblk & Hlast & Hb16 & Hri);
      [lia|].
    split; [done|].
    assert (painted clr
              (sector_blocks data
                 (boundary (Z.of_nat q), boundary (Z.of_nat q + 1))) !! z
            = Some (painted_text clr data q z)) as Hpt
      by (by apply painted_text_lookup; [| |apply Hblk]).
    split.
    { eexists. split; [|exact Hpt]. by rewrite list_lookup_fmap, Hse. }
    rewrite (block_index_add q z), <- Hsum, <- Hsh.
    rewrite (table_rows_lookup clr _ _ Hlen 0 0 q z _ _ _ _
               ltac:(by rewrite list_lookup_fmap, Hse)
               ltac:(by rewrite !list_lookup_fmap, Hse)
               (Hblk z Hz) Hpt).
    unfold block_row. rewrite Hri. unfold Py.len.
    rewrite painted_length, Hl. by rewrite Hsh, Hsum, <- block_index_add.
  - intros q m Hq. destruct (Hex q _ Hq) as [se Hse].
    destruct (Hbounds q se Hse) as (_ & _ & Hm & Hsum).
    rewrite Hq in Hm. by injection Hm as ->.
Qed.

(** Every line of the report is the line of a block of a sector. *)
Lemma accepted_report_lines (fuel : nat) (clr : bashcolors) (opts : Options)
    (data : list byte) :
  (40 ≤ fuel)%nat → Py.len data ∈ accepted_sizes →
  effective_size opts data ≤ Py.len data →
  ∃ rep,
    print_info fuel clr opts data = Some (Ok rep) ∧
    length (rep_rows rep)
    = Z.to_nat (effective_size opts data / 16) ∧
    (∀ q z : nat,
       layout_shape (effective_size opts data) !! q = Some (blocks_in q) →
       (z < blocks_in q)%nat →
       rep_rows rep !! block_index q z = Some (block_row clr data q z)) ∧
    (∀ (k : nat) (r : row),
       rep_rows rep !! k = Some r →
       ∃ q z : nat,
         layout_shape (effective_size opts data) !! q
         = Some (blocks_in q) ∧
         boundary (Z.of_nat q + 1) ≤ effective_size opts data ∧
         (z < blocks_in q)%nat ∧ k = block_index q z ∧
         r = block_row clr data q z).
Proof.
  intros Hfuel Hd Hle.
  destruct (accepted_report fuel clr opts data Hfuel Hd Hle)
    as (bm & rep & Hp & _ & Hn & Hrow & Hshape).
  exists rep. split; [exact Hp|]. split.
  { rewrite Hn.
    pose proof (effective_accepted opts data Hd) as Hs.
    apply accepted_sizes_spec in Hs as [-> | [-> | ->]]; by vm_compute. }
  split; [intros q z Hq Hz; by apply Hrow|].
  intros k r Hk. pose proof (lookup_lt_Some _ _ _ Hk) as Hlt.
  rewrite Hn in Hlt.
  destruct (index_split _ k Hlt) as (q & z & n & Hq & Hz & ->).
  destruct (Hshape q n Hq) as [-> Hsum].
  destruct (Hrow q z Hq Hz) as (Hin & _ & Hr).
  rewrite Hsum, <- block_index_add in Hk |- *.
  rewrite Hr in Hk. injection Hk as <-.
  by exists q, z.
Qed.

(** A sector that ends inside an accepted size is a sector of its
    layout. *)
Lemma sector_in_layout (ds : Z) (q : nat) :
  ds ∈ accepted_sizes → boundary (Z.of_nat q + 1) ≤ ds →
  layout_shape ds !! q = Some (blocks_in q).
Proof.
  intros Hs Hq. apply accepted_sizes_spec in Hs as [-> | [-> | ->]].
  - destruct (decide (q < 5)%nat) as [Hlt|Hge].
    + do 5 (destruct q as [|q]; [done|]). lia.
    + pose proof (boundary_mono 5 (Z.of_nat q + 1)).
      change (boundary 5) with 320 in *. lia.
  - destruct (decide (q < 16)%nat) as [Hlt|Hge].
    + do 16 (destruct q as [|q]; [done|]). lia.
    + pose proof (boundary_mono 16 (Z.of_nat q + 1)).
      change (boundary 16) with 1024 in *. lia.
  - destruct (decide (q < 40)%nat) as [Hlt|Hge].
    + do 40 (destruct q as [|q]; [done|]). lia.
    + pose proof (boundary_mono 40 (Z.of_nat q + 1)).
      change (boundary 40) with 4096 in *. lia.
Qed.

(** ** Numbers and labels of the lines *)

(** X10. The report of a dump of accepted size has one line for each 16
    bytes that are read (the whole dump, or its first 1024 bytes under
    the override), numbered 0, 1, 2, ... in order; the sector number is
    shown on the third block of each sector and on no other line. *)
Theorem rows_are_numbered (fuel : nat) (clr : bashcolors) (opts : Options)
    (data : list byte) :
  (40 ≤ fuel)%nat →
  length data = 320%nat ∨ length data = 1024%nat ∨ length data = 4096%nat →
  (FORCE_1K opts = true → length data ≠ 320%nat) →
  ∃ rep,
    print_info fuel clr opts data = Some (Ok rep) ∧
    row_block_number <$> rep_rows rep
    = Z.of_nat <$> seq 0 (Z.to_nat (effective_size opts data / 16)) ∧
    ∀ (q z : nat),
      boundary (Z.of_nat q + 1) ≤ effective_size opts data →
      (z < blocks_in q)%nat →
      ∃ r, rep_rows rep !! block_index q z = Some r ∧
           row_qn r = if decide (z = 2%nat) then Some (Z.of_nat q) else None.
Proof.
  intros Hfuel Hlen Hforce.
  destruct (accepted_no_overrun opts data Hlen Hforce) as [Hd Hle].
  destruct (accepted_report_lines fuel clr opts data Hfuel Hd Hle)
    as (rep & Hp & Hn & Hrow & Hall).
  exists rep. split; [exact Hp|]. split.
  - apply list_eq. intros k. rewrite !list_lookup_fmap.
    destruct (rep_rows rep !! k) as [r|] eqn:Hk.
    + destruct (Hall k r Hk) as (q & z & _ & _ & _ & -> & ->).
      pose proof (lookup_lt_Some _ _ _ Hk) as Hlt. rewrite Hn in Hlt.
      by rewrite lookup_seq_lt.
    + apply lookup_ge_None in Hk. rewrite Hn in Hk.
      by rewrite lookup_seq_ge.
  - intros q z Hq Hz.
    pose proof (sector_in_layout _ q (effective_accepted opts data Hd) Hq)
      as Hsh.
    eexists. split; [by apply Hrow|].
    cbn [block_row row_of row_qn].
    destruct (decide (z = 2%nat)) as [->|Hne]; [done|].
    destruct (Z.eqb_spec (Z.of_nat z) 2); [lia|done].
Qed.

Lemma rows_are_numbered_witness :
  (40 ≤ 40)%nat ∧ length (zero_dump 320) = 320%nat ∧
  ∃ rep,
    print_info 40 no_colors default_options (zero_dump 320) = Some (Ok rep) ∧
    row_block_number <$> rep_rows rep = Z.of_nat <$> seq 0 20.
Proof.
  split; [apply le_n|]. split; [reflexivity|].
  destruct (rows_are_numbered 40 no_colors default_options (zero_dump 320)
              (le_n 40) (or_introl eq_refl))
    as (rep & Hp & Hnum & _); [discriminate|].
  exists rep. split; [exact Hp | exact Hnum].
Defined.

(** ** The data column *)

Lemma block_bytes_length (data : list byte) (k : nat) :
  16 * Z.of_nat k + 16 ≤ Py.len data → length (block_bytes data k) = 16%nat.
Proof. intros Hk. unfold block_bytes. rewrite slice_length; lia. Qed.

Lemma block_in_dump (ds : Z) (q z : nat) :
  boundary (Z.of_nat q + 1) ≤ ds → (z < blocks_in q)%nat →
  16 * Z.of_nat (block_index q z) + 16 ≤ ds.
Proof.
  intros Hq Hz. rewrite block_index_add.
  pose proof (boundary_block_index q). pose proof (boundary_blocks_in q).
  lia.
Qed.

Lemma value_flag_bytes (b : list byte) :
  length b = 16%nat → value_flag (hexlify b) = value_pattern b.
Proof.
  intros Hb. unfold value_flag. by rewrite is_value_block_long by lia.
Qed.

Lemma paint_bytes (clr : bashcolors) (b : list byte) :
  paint clr (hexlify b)
  = ((RED clr +:+ hexlify (Py.slice b 0 6) +:+ ENDC clr)
     +:+ (GREEN clr +:+ hexlify (Py.slice b 6 10) +:+ ENDC clr)
     +:+ (BLUE clr +:+ hexlify (Py.slice b 10 16) +:+ ENDC clr))%string.
Proof.
  unfold paint.
  change 12 with (2 * 6). change 20 with (2 * 10). change 32 with (2 * 16).
  change 0 with (2 * 0) at 1.
  by rewrite !str_slice_hexlify by lia.
Qed.

(** X11. The data column of a line.  A block that passes
    [is_value_block] is shown in the warning colour, whole, also when it
    is a sector trailer; any other trailer is shown as key A (bytes 0 to
    5), access bits (bytes 6 to 9) and key B (bytes 10 to 15), each in its
    own colour; any other block is shown as the plain hexadecimal text of
    its 16 bytes. *)
Theorem data_column (fuel : nat) (clr : bashcolors) (opts : Options)
    (data : list byte) :
  (40 ≤ fuel)%nat →
  length data = 320%nat ∨ length data = 1024%nat ∨ length data = 4096%nat →
  (FORCE_1K opts = true → length data ≠ 320%nat) →
  ∃ rep,
    print_info fuel clr opts data = Some (Ok rep) ∧
    ∀ (q z : nat),
      boundary (Z.of_nat q + 1) ≤ effective_size opts data →
      (z < blocks_in q)%nat →
      let b := Py.slice data (16 * Z.of_nat (block_index q z))
                 (16 * Z.of_nat (block_index q z) + 16) in
      ∃ r (v : bool),
        rep_rows rep !! block_index q z = Some r ∧
        is_value_block (hexlify b) = Ok v ∧
        row_data r
        = if v then (WARNING clr +:+ hexlify b +:+ ENDC clr)%string
          else if decide (z = (blocks_in q - 1)%nat) then
            ((RED clr +:+ hexlify (Py.slice b 0 6) +:+ ENDC clr)
             +:+ (GREEN clr +:+ hexlify (Py.slice b 6 10) +:+ ENDC clr)
             +:+ (BLUE clr +:+ hexlify (Py.slice b 10 16) +:+ ENDC clr))%string
          else hexlify b.
Proof.
  intros Hfuel Hlen Hforce.
  destruct (accepted_no_overrun opts data Hlen Hforce) as [Hd Hle].
  destruct (accepted_report_lines fuel clr opts data Hfuel Hd Hle)
    as (rep & Hp & _ & Hrow & _).
  exists rep. split; [exact Hp|]. intros q z Hq Hz b.
  pose proof (sector_in_layout _ q (effective_accepted opts data Hd) Hq)
    as Hsh.
  assert (length b = 16%nat) as Hb.
  { apply block_bytes_length. pose proof (block_in_dump _ q z Hq Hz). lia. }
  exists (block_row clr data q z), (value_pattern b).
  split; [by apply Hrow|]. split; [by apply is_value_block_long; lia|].
  cbn [block_row row_of row_data]. unfold highlight, painted_text.
  fold b. unfold block_bytes. fold b. rewrite (value_flag_bytes b Hb).
  destruct (value_pattern b); [done|].
  destruct (decide (z = (blocks_in q - 1)%nat)); [|done].
  apply paint_bytes.
Qed.

Lemma data_column_witness :
  (40 ≤ 40)%nat ∧ length transport_dump_4k = 4096%nat ∧
  ∃ rep r,
    print_info 40 ansi_colors default_options transport_dump_4k
    = Some (Ok rep) ∧
    rep_rows rep !! 143%nat = Some r.
Proof.
  split; [apply le_n|]. split; [reflexivity|].
  destruct (data_column 40 ansi_colors default_options transport_dump_4k
              (le_n 40) (or_intror (or_intror eq_refl)))
    as (rep & Hp & Hrow); [discriminate|].
  destruct (Hrow 32%nat 15%nat) as (r & v & Hr & _);
    [vm_compute; discriminate | repeat constructor |].
  exists rep, r. split; [exact Hp | exact Hr].
Defined.

Lemma hexlify_app (x y : list byte) :
  hexlify (x ++ y) = (hexlify x +:+ hexlify y)%string.
Proof.
  induction x as [|b x IH]; [done|].
  cbn [app hexlify]. by rewrite IH.
Qed.

Lemma string_app_empty_r (s : string) : (s +:+ "")%string = s.
Proof. induction s as [|c s IH]; [done|]. by rewrite <- IH at 2. Qed.

Lemma string_app_empty_l (s : string) : ("" +:+ s)%string = s.
Proof. reflexivity. Qed.

Lemma paint_plain (b : list byte) :
  length b = 16%nat → paint no_colors (hexlify b) = hexlify b.
Proof.
  intros Hb. rewrite paint_bytes. cbn [RED GREEN BLUE ENDC no_colors].
  rewrite !string_app_empty_r, !string_app_empty_l.
  rewrite <- !hexlify_app. f_equal.
  do 16 (destruct b as [|? b]; [discriminate Hb|]).
  by destruct b.
Qed.

(** X12. With the colours off (option -n) nothing of the colouring is
    left: the data column of every line is the plain hexadecimal text of
    the 16 bytes of its block, trailer and value block included. *)
Theorem plain_data_column (fuel : nat) (opts : Options) (data : list byte) :
  (40 ≤ fuel)%nat →
  length data = 320%nat ∨ length data = 1024%nat ∨ length data = 4096%nat →
  (FORCE_1K opts = true → length data ≠ 320%nat) →
  ∃ rep,
    print_info fuel no_colors opts data = Some (Ok rep) ∧
    row_data <$> rep_rows rep
    = (λ k : nat, hexlify (Py.slice data (16 * Z.of_nat k)
                             (16 * Z.of_nat k + 16)))
        <$> seq 0 (Z.to_nat (effective_size opts data / 16)).
Proof.
  intros Hfuel Hlen Hforce.
  destruct (accepted_no_overrun opts data Hlen Hforce) as [Hd Hle].
  destruct (accepted_report_lines fuel no_colors opts data Hfuel Hd Hle)
    as (rep & Hp & Hn & _ & Hall).
  exists rep. split; [exact Hp|].
  apply list_eq. intros k. rewrite !list_lookup_fmap.
  destruct (rep_rows rep !! k) as [r|] eqn:Hk.
  - destruct (Hall k r Hk) as (q & z & _ & Hq & Hz & -> & ->).
    pose proof (lookup_lt_Some _ _ _ Hk) as Hlt. rewrite Hn in Hlt.
    rewrite lookup_seq_lt by done.
    cbn [fmap option_fmap option_map Nat.add block_row row_of row_data].
    f_equal. unfold highlight, painted_text. fold (block_bytes data
      (block_index q z)).
    assert (length (block_bytes data (block_index q z)) = 16%nat) as Hb.
    { apply block_bytes_length. pose proof (block_in_dump _ q z Hq Hz).
      lia. }
    destruct (value_flag _).
    { cbn [WARNING ENDC no_colors].
      by rewrite string_app_empty_r, string_app_empty_l. }
    destruct (decide _); [by apply paint_plain | done].
  - apply lookup_ge_None in Hk. rewrite Hn in Hk.
    by rewrite lookup_seq_ge.
Qed.

Lemma plain_data_column_witness :
  (40 ≤ 40)%nat ∧ length (zero_dump 320) = 320%nat ∧
  ∃ rep,
    print_info 40 no_colors default_options (zero_dump 320) = Some (Ok rep) ∧
    length (row_data <$> rep_rows rep) = 20%nat.
Proof.
  split; [apply le_n|]. split; [reflexivity|].
  destruct (plain_data_column 40 default_options (zero_dump 320)
              (le_n 40) (or_introl eq_refl))
    as (rep & Hp & Hdata); [discriminate|].
  exists rep. split; [exact Hp|]. rewrite Hdata. reflexivity.
Defined.

(** ** The permissions of the small sectors *)

Lemma trailer_field (data : list byte) (q : nat) :
  (q < 32)%nat → 64 * Z.of_nat q + 64 ≤ Py.len data →
  access_field (trailer_bytes data q)
  = bytes_bits (Py.slice data (64 * Z.of_nat q + 54) (64 * Z.of_nat q + 58)).
Proof.
  intros Hq Hlen. unfold access_field, trailer_bytes, block_bytes.
  assert (blocks_in q = 4%nat) as ->
    by (unfold blocks_in; by destruct (Nat.ltb_spec q 32); [|lia]).
  assert (block_index q (4 - 1) = (4 * q + 3)%nat) as ->
    by (unfold block_index; destruct (Nat.leb_spec q 32); lia).
  rewrite slice_slice by lia. f_equal. f_equal; lia.
Qed.

(** X13. In a sector of four blocks the line of block [z] carries the
    access code of group [z], decoded from the bytes 54 to 57 of the
    sector (bytes 6 to 9 of its trailer): the access column shows that
    code or ERR, and the permission column interprets it with the data
    table for the blocks 0 to 2 and with the trailer table for block 3,
    except on the very first line of the report, which shows "-". *)
Theorem small_sector_permissions (fuel : nat) (clr : bashcolors)
    (opts : Options) (data : list byte) :
  (40 ≤ fuel)%nat →
  length data = 320%nat ∨ length data = 1024%nat ∨ length data = 4096%nat →
  (FORCE_1K opts = true → length data ≠ 320%nat) →
  ∃ rep,
    print_info fuel clr opts data = Some (Ok rep) ∧
    ∀ (q z : nat),
      (q < 32)%nat →
      64 * Z.of_nat q + 64 ≤ effective_size opts data →
      (z < 4)%nat →
      let field :=
        bytes_bits (Py.slice data (64 * Z.of_nat q + 54)
                      (64 * Z.of_nat q + 58)) in
      ∃ r code,
        rep_rows rep !! (4 * q + z)%nat = Some r ∧
        accbits_for_blocknum field (Z.of_nat z) = Ok code ∧
        row_accbits r = format_accbits clr code ∧
        row_permissions r
        = if decide (q = 0%nat ∧ z = 0%nat) then "-"%string
          else if decide (z = 3%nat) then accbits_to_permission_sector code
          else accbits_to_permission_data code.
Proof.
  intros Hfuel Hlen Hforce.
  destruct (accepted_no_overrun opts data Hlen Hforce) as [Hd Hle].
  destruct (accepted_report_lines fuel clr opts data Hfuel Hd Hle)
    as (rep & Hp & _ & Hrow & _).
  exists rep. split; [exact Hp|]. intros q z Hq Hin Hz field.
  assert (blocks_in q = 4%nat) as Hb4
    by (unfold blocks_in; by destruct (Nat.ltb_spec q 32); [|lia]).
  assert (block_index q z = (4 * q + z)%nat) as Hbi
    by (unfold block_index; destruct (Nat.leb_spec q 32); lia).
  assert (boundary (Z.of_nat q + 1) = 64 * Z.of_nat q + 64) as Hbq
    by (unfold boundary; destruct (Z.leb_spec (Z.of_nat q + 1) 32); lia).
  assert (layout_shape (effective_size opts data) !! q = Some (blocks_in q))
    as Hsh.
  { apply sector_in_layout; [by apply effective_accepted | lia]. }
  specialize (Hrow q z Hsh ltac:(lia)). rewrite Hbi in Hrow.
  assert (Py.len field = 32) as Hf.
  { unfold field. rewrite <- trailer_field by lia.
    apply access_field_length. unfold trailer_bytes.
    apply block_bytes_length.
    pose proof (block_in_dump (Py.len data) q (blocks_in q - 1)). lia. }
  destruct (groups_checked field Hf) as (A0 & A1 & A2 & A3).
  exists (block_row clr data q z), (dd_get (small_rights field) (Z.of_nat z)).
  split; [exact Hrow|].
  assert (sector_rights (blocks_in q) (trailer_bytes data q)
          = small_rights field) as Hri.
  { unfold sector_rights. rewrite Hb4, decide_False by lia.
    by rewrite trailer_field by lia. }
  cbn [block_row row_of row_accbits row_permissions]. rewrite Hri, Hb4.
  split.
  { rewrite dd_get_small.
    do 4 (destruct z as [|z]; [done|]). lia. }
  split; [done|]. unfold block_permissions.
  destruct (decide (q = 0%nat ∧ z = 0%nat)) as [[-> ->]|Hqz]; [done|].
  replace ((Z.of_nat q =? 0) && (Z.of_nat z =? 0)) with false.
  2:{ destruct (Z.eqb_spec (Z.of_nat q) 0), (Z.eqb_spec (Z.of_nat z) 0);
      try done. destruct Hqz. lia. }
  destruct (decide (z = 3%nat)) as [->|Hz3]; [done|].
  by destruct (Z.eqb_spec (Z.of_nat z) (Z.of_nat 4 - 1)); [lia|].
Qed.

Lemma small_sector_permissions_witness :
  (40 ≤ 40)%nat ∧ length transport_dump_4k = 4096%nat ∧
  ∃ rep r code,
    print_info 40 no_colors default_options transport_dump_4k
    = Some (Ok rep) ∧
    rep_rows rep !! 7%nat = Some r ∧
    row_accbits r = format_accbits no_colors code.
Proof.
  split; [apply le_n|]. split; [reflexivity|].
  destruct (small_sector_permissions 40 no_colors default_options
              transport_dump_4k (le_n 40) (or_intror (or_intror eq_refl)))
    as (rep & Hp & Hrow); [discriminate|].
  destruct (Hrow 1%nat 3%nat) as (r & code & Hr & _ & Hacc & _);
    [repeat constructor | vm_compute; discriminate | repeat constructor|].
  exists rep, r, code. split; [exact Hp|]. split; [exact Hr | exact Hacc].
Defined.

(** ** What the permission column can show *)

Lemma checked_values (a : list bool) (i j k i' j' k' : Z) :
  checked a [i; j; k] [i'; j'; k'] = PyFalse ∨
  ∃ b1 b2 b3, checked a [i; j; k] [i'; j'; k'] = Bits [b1; b2; b3].
Proof.
  unfold checked. destruct (decide _); [right|by left].
  by eexists _, _, _.
Qed.

Lemma rights_values (n : nat) (b : list byte) (z : Z) :
  dd_get (sector_rights n b) z = PyFalse ∨
  ∃ b1 b2 b3, dd_get (sector_rights n b) z = Bits [b1; b2; b3].
Proof.
  unfold sector_rights. destruct (decide (n = 16%nat)).
  - rewrite dd_get_large. destruct (decide (z = 15)); [|by left].
    apply checked_values.
  - rewrite dd_get_small.
    repeat (destruct (decide (z = _)); [apply checked_values|]).
    by left.
Qed.

Lemma code_described (b1 b2 b3 : bool) :
  ∃ ds dd,
    permissions_sector !! BitArray.bin [b1; b2; b3] = Some ds ∧
    permissions_data !! BitArray.bin [b1; b2; b3] = Some dd ∧
    accbits_to_permission_sector (Bits [b1; b2; b3]) = ds ∧
    accbits_to_permission_data (Bits [b1; b2; b3]) = dd ∧
    ds ≠ "unknown"%string ∧ dd ≠ "unknown"%string.
Proof.
  destruct b1, b2, b3; eexists _, _; vm_compute; repeat split; discriminate.
Qed.

(** X14. The report of a dump of accepted size never shows "unknown".
    The permission column of a line is the placeholder "-", or it is
    empty beside ERR in the access column, or it is the description that
    one of the two tables gives for the three bits shown in the access
    column. *)
Theorem permission_column_values (fuel : nat) (clr : bashcolors)
    (opts : Options) (data : list byte) :
  (40 ≤ fuel)%nat →
  length data = 320%nat ∨ length data = 1024%nat ∨ length data = 4096%nat →
  (FORCE_1K opts = true → length data ≠ 320%nat) →
  ∃ rep,
    print_info fuel clr opts data = Some (Ok rep) ∧
    ∀ r, r ∈ rep_rows rep →
      row_permissions r ≠ "unknown"%string ∧
      (row_permissions r = "-"%string ∨
       (row_accbits r = (WARNING clr +:+ "ERR" +:+ ENDC clr)%string ∧
        row_permissions r = ""%string) ∨
       ∃ b1 b2 b3 : bool,
         row_accbits r
         = (GREEN clr +:+ BitArray.bin [b1; b2; b3] +:+ ENDC clr)%string ∧
         (permissions_sector !! BitArray.bin [b1; b2; b3]
          = Some (row_permissions r) ∨
          permissions_data !! BitArray.bin [b1; b2; b3]
          = Some (row_permissions r))).
Proof.
  intros Hfuel Hlen Hforce.
  destruct (accepted_no_overrun opts data Hlen Hforce) as [Hd Hle].
  destruct (accepted_report_lines fuel clr opts data Hfuel Hd Hle)
    as (rep & Hp & _ & _ & Hall).
  exists rep. split; [exact Hp|]. intros r Hr.
  apply list_elem_of_lookup in Hr as [k Hk].
  destruct (Hall k r Hk) as (q & z & _ & _ & _ & _ & ->).
  cbn [block_row row_of row_accbits row_permissions].
  unfold block_permissions.
  destruct ((Z.of_nat q =? 0) && (Z.of_nat z =? 0)); [split; [done|by left]|].
  destruct (rights_values (blocks_in q) (trailer_bytes data q) (Z.of_nat z))
    as [-> | (b1 & b2 & b3 & ->)].
  - cbn [format_accbits accbits_to_permission_sector
           accbits_to_permission_data].
    destruct (_ =? _); split; try done; right; by left.
  - destruct (code_described b1 b2 b3)
      as (ds & dd & Hs & Hdd & Hes & Hed & Hns & Hnd).
    rewrite Hes, Hed.
    destruct (_ =? _); (split; [done|]); right; right;
      exists b1, b2, b3; (split; [done|]); [by left | by right].
Qed.

Lemma permission_column_values_witness :
  (40 ≤ 40)%nat ∧ length (zero_dump 1024) = 1024%nat ∧
  ∃ rep, print_info 40 no_colors default_options (zero_dump 1024)
         = Some (Ok rep) ∧
         ∀ r, r ∈ rep_rows rep → row_permissions r ≠ "unknown"%string.
Proof.
  split; [apply le_n|]. split; [reflexivity|].
  destruct (permission_column_values 40 no_colors default_options
              (zero_dump 1024) (le_n 40) (or_intror (or_introl eq_refl)))
    as (rep & Hp & Hall); [discriminate|].
  exists rep. split; [exact Hp|]. intros r Hr. exact (proj1 (Hall r Hr)).
Defined.

(** ** The header *)

Lemma str_slice_block (data : list byte) (lo hi : Z) :
  16 ≤ Py.len data → 0 ≤ lo ≤ hi → hi ≤ 16 →
  Py.str_slice (hexlify (block_bytes data 0)) (2 * lo) (2 * hi)
  = hexlify (Py.slice data lo hi).
Proof.
  intros Hd Hlo Hhi. rewrite str_slice_hexlify by lia.
  unfold block_bytes. by rewrite slice_slice by lia.
Qed.

(** X15. The header of the report gives the length of the whole dump,
    also under the override, and the number of sectors read.  Its fields
    are bytes of the dump's first block: with a 4-byte UID, the UID is
    bytes 0 to 3, the SAK byte 5 and the ATQA bytes 6 and 7; with a 7-byte
    UID, bytes 0 to 6, byte 7 and bytes 8 and 9.  The BCC is byte 4 in
    both cases, a byte of the UID when that has 7 bytes. *)
Theorem header_fields (fuel : nat) (clr : bashcolors) (opts : Options)
    (data : list byte) :
  (40 ≤ fuel)%nat →
  length data = 320%nat ∨ length data = 1024%nat ∨ length data = 4096%nat →
  (FORCE_1K opts = true → length data ≠ 320%nat) →
  ∃ rep,
    print_info fuel clr opts data = Some (Ok rep) ∧
    let h := rep_header rep in
    hdr_file_size h = Z.of_nat (length data) ∧
    boundary (hdr_sectors h) = effective_size opts data ∧
    hdr_bcc h = hexlify (Py.slice data 4 5) ∧
    (UID_LENGTH opts = 4 →
       hdr_uid h = hexlify (Py.slice data 0 4) ∧
       hdr_sak h = hexlify (Py.slice data 5 6) ∧
       hdr_atqa h = hexlify (Py.slice data 6 8)) ∧
    (UID_LENGTH opts = 7 →
       hdr_uid h = hexlify (Py.slice data 0 7) ∧
       hdr_sak h = hexlify (Py.slice data 7 8) ∧
       hdr_atqa h = hexlify (Py.slice data 8 10)).
Proof.
  intros Hfuel Hlen Hforce.
  destruct (accepted_no_overrun opts data Hlen Hforce) as [Hd Hle].
  destruct (accepted_report fuel clr opts data Hfuel Hd Hle)
    as (bm & rep & Hp & Hh & _ & Hrow & _).
  pose proof (effective_accepted opts data Hd) as Hs.
  exists rep. split; [exact Hp|]. cbn zeta. rewrite Hh.
  destruct (Hrow 0%nat 0%nat) as (_ & (sec & Hsec & Hblk) & _).
  { apply sector_in_layout; [done|].
    apply accepted_sizes_spec in Hs as [-> | [-> | ->]]; by vm_compute. }
  { repeat constructor. }
  assert (16 ≤ Py.len data) as H16 by (unfold Py.len; lia).
  unfold header_of. rewrite list_lookup_fmap, Hsec.
  cbn [fmap option_fmap option_map mbind option_bind]. rewrite Hblk.
  cbn [default from_option id hdr_file_size hdr_sectors hdr_uid hdr_bcc
         hdr_sak hdr_atqa].
  change (painted_text clr data 0 0) with (hexlify (block_bytes data 0)).
  split; [done|]. split.
  { apply accepted_sizes_spec in Hs as [-> | [-> | ->]]; by vm_compute. }
  split; [exact (str_slice_block data 4 5 H16 ltac:(lia) ltac:(lia))|].
  split; intros ->; cbn [Z.eqb Pos.eqb Z.mul Z.add Pos.mul Pos.add
                          Pos.succ Pos.add_carry].
  - split; [exact (str_slice_block data 0 4 H16 ltac:(lia) ltac:(lia))|].
    split; [exact (str_slice_block data 5 6 H16 ltac:(lia) ltac:(lia))
           |exact (str_slice_block data 6 8 H16 ltac:(lia) ltac:(lia))].
  - split; [exact (str_slice_block data 0 7 H16 ltac:(lia) ltac:(lia))|].
    split; [exact (str_slice_block data 7 8 H16 ltac:(lia) ltac:(lia))
           |exact (str_slice_block data 8 10 H16 ltac:(lia) ltac:(lia))].
Qed.

Lemma header_fields_witness :
  (40 ≤ 40)%nat ∧ length transport_dump_4k = 4096%nat ∧
  ∃ rep,
    print_info 40 ansi_colors {| FORCE_1K := true; UID_LENGTH := 7 |}
      transport_dump_4k
    = Some (Ok rep) ∧
    hdr_file_size (rep_header rep) = 4096 ∧
    boundary (hdr_sectors (rep_header rep)) = 1024.
Proof.
  split; [apply le_n|]. split; [reflexivity|].
  destruct (header_fields 40 ansi_colors
              {| FORCE_1K := true; UID_LENGTH := 7 |} transport_dump_4k
              (le_n 40) (or_intror (or_intror eq_refl)))
    as (rep & Hp & Hsize & Hsec & _); [discriminate|].
  exists rep. split; [exact Hp|]. split; [exact Hsize | exact Hsec].
Defined.

(** ** The override on a larger dump *)

Lemma block_bytes_prefix (data : list byte) (n : Z) (k : nat) :
  16 * Z.of_nat k + 16 ≤ n → n ≤ Py.len data →
  block_bytes (Py.slice data 0 n) k = block_bytes data k.
Proof.
  intros Hk Hn. unfold block_bytes. by rewrite slice_slice by lia.
Qed.

Lemma block_row_prefix (clr : bashcolors) (data : list byte) (n : Z)
    (q z : nat) :
  boundary (Z.of_nat q + 1) ≤ n → n ≤ Py.len data → (z < blocks_in q)%nat →
  block_row clr (Py.slice data 0 n) q z = block_row clr data q z.
Proof.
  intros Hq Hn Hz. unfold block_row, painted_text, trailer_bytes.
  assert (0 < blocks_in q)%nat
    by (unfold blocks_in; destruct (q <? 32)%nat; lia).
  rewrite !(block_bytes_prefix data n) by
    (first [done | apply block_in_dump; [done | lia]]).
  done.
Qed.

(** X16. Under the override a dump of 4096 bytes is reported as its first
    1024 bytes are without it: the same 64 lines of 16 sectors, and the
    same UID, BCC, SAK and ATQA in the header.  Only the file size in the
    header differs, which still is 4096; the 3072 bytes after the first
    1024 are not looked at. *)
Theorem override_reads_first_kilobyte (fuel : nat) (clr : bashcolors)
    (uid_length : Z) (data : list byte) :
  (40 ≤ fuel)%nat → length data = 4096%nat →
  ∃ rep1 rep2,
    print_info fuel clr {| FORCE_1K := true; UID_LENGTH := uid_length |} data
    = Some (Ok rep1) ∧
    print_info fuel clr {| FORCE_1K := false; UID_LENGTH := uid_length |}
      (Py.slice data 0 1024)
    = Some (Ok rep2) ∧
    rep_rows rep1 = rep_rows rep2 ∧
    length (rep_rows rep1) = 64%nat ∧
    hdr_sectors (rep_header rep1) = 16 ∧
    hdr_sectors (rep_header rep2) = 16 ∧
    hdr_file_size (rep_header rep1) = 4096 ∧
    hdr_file_size (rep_header rep2) = 1024 ∧
    hdr_uid (rep_header rep1) = hdr_uid (rep_header rep2) ∧
    hdr_bcc (rep_header rep1) = hdr_bcc (rep_header rep2) ∧
    hdr_sak (rep_header rep1) = hdr_sak (rep_header rep2) ∧
    hdr_atqa (rep_header rep1) = hdr_atqa (rep_header rep2).
Proof.
  intros Hfuel Hlen.
  assert (Py.len data = 4096) as Hd by (unfold Py.len; lia).
  assert (Py.len (Py.slice data 0 1024) = 1024) as Hd'.
  { unfold Py.len. rewrite slice_length; lia. }
  set (o1 := {| FORCE_1K := true; UID_LENGTH := uid_length |}).
  set (o2 := {| FORCE_1K := false; UID_LENGTH := uid_length |}).
  assert (effective_size o1 data = 1024) as He1 by done.
  assert (effective_size o2 (Py.slice data 0 1024) = 1024) as He2
    by (unfold effective_size; cbn [FORCE_1K o2]; exact Hd').
  destruct (accepted_report fuel clr o1 data Hfuel) as
    (bm1 & rep1 & Hp1 & Hh1 & _ & Hm1 & _);
    [rewrite Hd; apply accepted_sizes_spec; lia | rewrite He1; lia|].
  destruct (accepted_report fuel clr o2 (Py.slice data 0 1024) Hfuel) as
    (bm2 & rep2 & Hp2 & Hh2 & _ & Hm2 & _);
    [rewrite Hd'; apply accepted_sizes_spec; lia | rewrite He2; lia|].
  destruct (accepted_report_lines fuel clr o1 data Hfuel) as
    (rep1' & Hp1' & Hn1 & Hrow1 & Hall1);
    [rewrite Hd; apply accepted_sizes_spec; lia | rewrite He1; lia|].
  destruct (accepted_report_lines fuel clr o2 (Py.slice data 0 1024) Hfuel)
    as (rep2' & Hp2' & Hn2 & Hrow2 & Hall2);
    [rewrite Hd'; apply accepted_sizes_spec; lia | rewrite He2; lia|].
  rewrite Hp1 in Hp1'. injection Hp1' as <-.
  rewrite Hp2 in Hp2'. injection Hp2' as <-.
  rewrite He1 in *. rewrite He2 in *.
  exists rep1, rep2. split; [exact Hp1|]. split; [exact Hp2|].
  split; [|split; [by rewrite Hn1|]].
  - apply list_eq. intros k.
    destruct (rep_rows rep1 !! k) as [r|] eqn:Hk.
    + destruct (Hall1 k r Hk) as (q & z & Hsh & Hq & Hz & -> & ->).
      rewrite (Hrow2 q z Hsh Hz). f_equal. symmetry.
      apply block_row_prefix; [done | lia | done].
    + apply lookup_ge_None in Hk. rewrite Hn1 in Hk.
      symmetry. apply lookup_ge_None. by rewrite Hn2.
  - destruct (Hm1 0%nat 0%nat) as (_ & (sec1 & Hsec1 & Hblk1) & _);
      [by vm_compute | repeat constructor |].
    destruct (Hm2 0%nat 0%nat) as (_ & (sec2 & Hsec2 & Hblk2) & _);
      [by vm_compute | repeat constructor |].
    assert (painted_text clr (Py.slice data 0 1024) 0 0
            = painted_text clr data 0 0) as Hb0.
    { change (hexlify (block_bytes (Py.slice data 0 1024) 0)
              = hexlify (block_bytes data 0)).
      rewrite block_bytes_prefix; [done | lia | lia]. }
    rewrite Hb0 in Hblk2.
    rewrite Hh1, Hh2. unfold header_of.
    rewrite !list_lookup_fmap, Hsec1, Hsec2.
    cbn [fmap option_fmap option_map mbind option_bind].
    rewrite Hblk1, Hblk2.
    cbn [hdr_sectors hdr_file_size hdr_uid hdr_bcc hdr_sak hdr_atqa
           UID_LENGTH o1 o2].
    rewrite Hd, Hd'. repeat split; by vm_compute.
Qed.

Lemma override_reads_first_kilobyte_witness :
  (40 ≤ 40)%nat ∧ length transport_dump_4k = 4096%nat ∧
  ∃ rep1 rep2,
    print_info 40 no_colors {| FORCE_1K := true; UID_LENGTH := 4 |}
      transport_dump_4k
    = Some (Ok rep1) ∧
    print_info 40 no_colors {| FORCE_1K := false; UID_LENGTH := 4 |}
      (Py.slice transport_dump_4k 0 1024)
    = Some (Ok rep2) ∧
    rep_rows rep1 = rep_rows rep2.
Proof.
  split; [apply le_n|]. split; [reflexivity|].
  destruct (override_reads_first_kilobyte 40 no_colors 4 transport_dump_4k
              (le_n 40) eq_refl)
    as (rep1 & rep2 & Hp1 & Hp2 & Hrows & _).
  exists rep1, rep2. split; [exact Hp1|]. split; [exact Hp2 | exact Hrows].
Defined.

(** ** The access bytes *)

Lemma nibble_range (b : byte) :
  0 ≤ high_nibble b < 16 ∧ 0 ≤ low_nibble b < 16.
Proof.
  unfold high_nibble, low_nibble, byte_val.
  pose proof (Byte.to_N_bounded b).
  split; Z.to_euclidean_division_equations; lia.
Qed.

Lemma sixteen_cases (v : Z) :
  0 ≤ v < 16 →
  Exists (λ k, v = k) [0; 1; 2; 3; 4; 5; 6; 7; 8; 9; 10; 11; 12; 13; 14; 15].
Proof.
  intros Hv. repeat setoid_rewrite Exists_cons. rewrite Exists_nil. lia.
Qed.

Lemma nibble_inverse (v w : Z) :
  0 ≤ v < 16 → 0 ≤ w < 16 →
  (Z.testbit v 0 = negb (Z.testbit w 0) ∧
   Z.testbit v 1 = negb (Z.testbit w 1) ∧
   Z.testbit v 2 = negb (Z.testbit w 2) ∧
   Z.testbit v 3 = negb (Z.testbit w 3)) ↔ v = Z.lxor w 15.
Proof.
  intros Hv Hw.
  apply sixteen_cases in Hv, Hw.
  repeat setoid_rewrite Exists_cons in Hv.
  repeat setoid_rewrite Exists_cons in Hw.
  rewrite Exists_nil in Hv, Hw.
  repeat (destruct Hv as [-> | Hv]); try done;
    repeat (destruct Hw as [-> | Hw]); try done;
    vm_compute; split; intros; repeat split; try done;
    repeat match goal with H : _ ∧ _ |- _ => destruct H end;
    discriminate.
Qed.

Lemma group_code (b6 b7 b8 b9 : byte) (g : Z) :
  0 ≤ g ≤ 3 →
  let code := [Z.testbit (high_nibble b7) g; Z.testbit (low_nibble b8) g;
               Z.testbit (high_nibble b8) g] in
  let inverted := [Z.testbit (low_nibble b6) g; Z.testbit (high_nibble b6) g;
                   Z.testbit (low_nibble b7) g] in
  accbits_for_blocknum (bytes_bits [b6; b7; b8; b9]) g
  = Ok (if decide (code = negb <$> inverted) then Bits code else PyFalse).
Proof.
  intros Hg.
  destruct (groups_checked (bytes_bits [b6; b7; b8; b9]))
    as (A0 & A1 & A2 & A3); [done|].
  assert (g = 0 ∨ g = 1 ∨ g = 2 ∨ g = 3) as [-> | [-> | [-> | ->]]] by lia;
    cbn zeta; [rewrite A0 | rewrite A1 | rewrite A2 | rewrite A3];
    reflexivity.
Qed.

(** X17. The four access codes of a trailer come from three of its
    bytes.  With bytes 6, 7 and 8 of the trailer, group [g] has the code
    made of bit [g] of the high nibble of byte 7, of the low nibble of
    byte 8 and of the high nibble of byte 8, and all four groups are valid
    exactly when these three nibbles are the inverses of the low nibble of
    byte 6, the high nibble of byte 6 and the low nibble of byte 7.  Byte
    9, the fourth byte of the field that is passed, has no influence. *)
Theorem access_bytes (b6 b7 b8 b9 : byte) :
  let field := bytes_bits [b6; b7; b8; b9] in
  ((∀ g, 0 ≤ g ≤ 3 → ∃ code, accbits_for_blocknum field g = Ok (Bits code))
   ↔ high_nibble b7 = Z.lxor (low_nibble b6) 15 ∧
     low_nibble b8 = Z.lxor (high_nibble b6) 15 ∧
     high_nibble b8 = Z.lxor (low_nibble b7) 15) ∧
  (∀ g code, 0 ≤ g ≤ 3 →
     accbits_for_blocknum field g = Ok (Bits code) →
     code = [Z.testbit (high_nibble b7) g; Z.testbit (low_nibble b8) g;
             Z.testbit (high_nibble b8) g]) ∧
  (∀ (b9' : byte) (g : Z),
     accbits_for_blocknum (bytes_bits [b6; b7; b8; b9']) g
     = accbits_for_blocknum field g).
Proof.
  cbn zeta. split; [|split].
  - destruct (nibble_range b6) as [Hh6 Hl6], (nibble_range b7) as [Hh7 Hl7],
      (nibble_range b8) as [Hh8 Hl8].
    rewrite <- (nibble_inverse _ _ Hh7 Hl6), <- (nibble_inverse _ _ Hl8 Hh6),
      <- (nibble_inverse _ _ Hh8 Hl7).
    split.
    + intros H.
      destruct (H 0 ltac:(lia)) as [c0 H0], (H 1 ltac:(lia)) as [c1 H1],
        (H 2 ltac:(lia)) as [c2 H2], (H 3 ltac:(lia)) as [c3 H3].
      rewrite group_code in H0, H1, H2, H3 by lia.
      cbn zeta in *.
      destruct (decide _) as [[= ? ? ?]|] in H0; [|done].
      destruct (decide _) as [[= ? ? ?]|] in H1; [|done].
      destruct (decide _) as [[= ? ? ?]|] in H2; [|done].
      destruct (decide _) as [[= ? ? ?]|] in H3; [|done].
      done.
    + intros ((A0 & A1 & A2 & A3) & (B0 & B1 & B2 & B3)
              & (C0 & C1 & C2 & C3)) g Hg.
      rewrite group_code by done. cbn zeta.
      assert (g = 0 ∨ g = 1 ∨ g = 2 ∨ g = 3) as [-> | [-> | [-> | ->]]]
        by lia;
        (rewrite decide_True; [by eexists|]); cbn [fmap list_fmap];
        congruence.
  - intros g code Hg. rewrite group_code by done. cbn zeta.
    destruct (decide _); [|done]. by intros [= <-].
  - intros b9' g.
    destruct (decide (0 ≤ g ≤ 3)) as [Hg|Hg].
    + by rewrite !group_code by done.
    + destruct (decide (g = 15)) as [->|H15].
      * by rewrite !(accbits_for_blocknum_trailer _ 15)
          by (done || by right).
      * assert (g ≠ 0 ∧ g ≠ 1 ∧ g ≠ 2 ∧ g ≠ 3) as (? & ? & ? & ?) by lia.
        unfold accbits_for_blocknum.
        destruct (Z.eqb_spec g 0) as [?|_]; [done|].
        destruct (Z.eqb_spec g 1) as [?|_]; [done|].
        destruct (Z.eqb_spec g 2) as [?|_]; [done|].
        destruct (Z.eqb_spec g 3) as [?|_]; [done|].
        by destruct (Z.eqb_spec g 15) as [?|_].
Qed.
